(** * MasterLT_EPOS4Demo: the demo program of the EPOS4 class (main.cpp)

    A shallow embedding of [receiverTask], [PDOHelper], [heartbeatTask] and
    [app_main].  The program talks to the drive only through the EPOS4 class
    library and FreeRTOS, which are not part of the repository: every call
    into them is recorded as an [Event] of a trace, and what a call returns
    is read from a record of answers ([EPOS4]).  The loops of the program do
    not terminate; they are unrolled a bounded number of times ([fuel]) and
    a run that is still inside a loop when the bound is reached reports the
    loop it is in ([Spin]). *)

From Stdlib Require Import ZArith String List Bool Lia.
Import ListNotations.
Local Open Scope Z_scope.

(** ** Data of the library, as far as main.cpp names it *)

(** [ERROR_CODE_t]: a 32-bit code; [PDOHelper] accumulates it in a
    [uint32_t]. *)
Definition ERROR_CODE_t := Z.

(** Declared in EPOS4Class.hpp (not in the repository): the code of a
    successful call. [PDOHelper] relies on it being zero, line 123. *)
Definition ERROR_CODE_NOERROR : ERROR_CODE_t := 0.

Definition uint32 (x : Z) : Z := x mod 2 ^ 32.
Definition uint8 (x : Z) : Z := x mod 2 ^ 8.

(** Object dictionary entries named by the program. *)
Inductive OD : Type :=
| EPOS_OD_CONTROLWORD
| EPOS_OD_STATUSWORD
| EPOS_OD_PROFILE_VELOCITY
| EPOS_OD_PROFILE_ACCELERATION
| EPOS_OD_PROFILE_DECELERATION
| EPOS_OD_TARGET_POSITION
| EPOS_OD_POSITION_ACTUAL_VALUE
| EPOS_OD_VELOCITY_ACTUAL_VALUE
| EPOS_OD_VELOCITY_ACTUAL_VALUES_VELOCITY_ACTUAL_VALUE_AVERAGED
| EPOS_OD_TRANSMIT_PDO_1_PARAMETER_INHIBIT_TIME_TXPDO_1.

Inductive PDO_CHANNEL : Type := RXPDO1 | RXPDO2 | TXPDO1.

Inductive PDO_TRANSMISSION_MODE : Type :=
| PDO_TRANSMISSION_MODE_SYNC
| PDO_TRANSMISSION_MODE_ASYNC.

(** [PDO_MAPPING_t], built by the braced initialisers of lines 106-119:
    channel, transmission mode, mapped objects and a fourth list that the
    program always leaves empty. *)
Record PDO_MAPPING_t : Type := mkPDO_MAPPING {
  pdo_channel : PDO_CHANNEL;
  pdo_mode : PDO_TRANSMISSION_MODE;
  pdo_objects : list OD;
  pdo_rest : list Z
}.

Inductive NMT_COMMAND : Type :=
| NMT_COMMAND_GOTO_PRE_OPERATIONAL
| NMT_COMMAND_GOTO_OPERATIONAL.

Inductive OPERATION_MODE : Type :=
| EPOS_OPERATION_MODE_PVM
| EPOS_OPERATION_MODE_PPM.

Inductive CW_BITS : Type :=
| CW_BITS_NEW_SET_POINT
| CW_BITS_ABS_OR_RELATIVE
| CW_BITS_HALT.

Inductive SW_BITS : Type := SW_BITS_TARGET_REACHED.

(** Lines 27 and 34. *)
Definition motorNodeID : Z := 1.
Definition masterNodeID : Z := 127.

(** Lines 41-44: the contracted names of the PDO configurations. *)
Definition RxPDO_ControlWord_Synchronous : string := "CWS".
Definition RxPDO_Profile_Velocity : string := "PV".
Definition TxPDO_StatusWord_Position : string := "SP".

(** ** Calls that leave the program *)

Inductive LogLevel : Type := LOGI | LOGW | LOGE.

Inductive Event : Type :=
| EvLog (lvl : LogLevel) (tag msg : string) (args : list Z)
| EvWait (ms : Z)
| EvLogLevelSet
| EvTWAISetup
| EvTaskCreate (name : string)
| EvDisable
| EvClearError
| EvHalt
| EvEnable
| EvChangeNMTState (c : NMT_COMMAND)
| EvResetNumPDOMapped
| EvConfigPDO (name : string) (cfg : PDO_MAPPING_t)
| EvSendSDO (obj : OD) (value : Z) (third : option Z)
| EvSetHeartbeatConsumer (node : Z) (ms : Z)
| EvSetModeOfOperation (m : OPERATION_MODE)
| EvMoveToTargetVelocity (rpm : Z)
| EvMoveToTargetPosition (pos : Z) (a b : bool)
| EvGetODpair (obj : OD)
| EvGetODvalue (obj : OD)
| EvSendRxPDO (name : string) (values : list Z)
| EvSetControlWordBits (bits : list CW_BITS) (values : list bool)
| EvBroadcastSync
| EvGetBitFromStatusWord (bit : SW_BITS)
| EvSendHeartbeat (node : Z)
| EvTaskDelayUntil (wake : Z).

(** What the library answers.  The program uses the answer of a call only
    where a field is given here; calls whose result it drops need no
    field, except [sendSDO] and [resetNumPDOMapped], kept to show that
    they are dropped.  Calls repeated inside a loop are answered by the
    number of earlier rounds. *)
Record EPOS4 : Type := mkEPOS4 {
  changeNMTState_ret : NMT_COMMAND -> ERROR_CODE_t;
  resetNumPDOMapped_ret : ERROR_CODE_t;
  configPDO_ret : string -> PDO_MAPPING_t -> ERROR_CODE_t;
  sendSDO_ret : OD -> Z -> ERROR_CODE_t;
  getODpair_ret : OD -> Z * Z;
  setControlWordBits_ret : list CW_BITS -> list bool -> Z;
  getBitFromStatusWord_ret : nat -> SW_BITS -> Z;
  localOD_ret : nat -> OD -> Z;
  sendHeartbeat_ret : nat -> Z -> ERROR_CODE_t;
  parseError : ERROR_CODE_t -> Z
}.

(** ** Traces with a bound on loop rounds *)

(** The loops of the program a run can still be inside. *)
Inductive Spin : Type :=
| InTargetReachedLoop   (* lines 274-282 *)
| InDemoLoop            (* lines 302-308 *)
| InSetupFailedLoop     (* lines 315-318 *)
| InHeartbeatLoop.      (* lines 142-151 *)

(** A computation: the calls made so far, and either its value or the loop
    in which the bound ran out. *)
Definition M (A : Type) : Type := (list Event * (A + Spin))%type.

Definition ret {A : Type} (a : A) : M A := ([], inl a).

Definition bind {A B : Type} (c : M A) (k : A -> M B) : M B :=
  match c with
  | (t, inl a) => let (t', r) := k a in (t ++ t', r)
  | (t, inr s) => (t, inr s)
  end.

Definition emit (e : Event) : M unit := ([e], inl tt).

Definition answer {A : Type} (e : Event) (a : A) : M A := ([e], inl a).

Definition spin {A : Type} (s : Spin) : M A := ([], inr s).

Definition trace {A : Type} (c : M A) : list Event := fst c.
Definition outcome {A : Type} (c : M A) : A + Spin := snd c.

Declare Scope prog_scope.
Delimit Scope prog_scope with prog.
Notation "x <- c ;; k" := (bind c (fun x => k))
  (at level 61, c at next level, right associativity) : prog_scope.
Notation "c ;; k" := (bind c (fun _ => k))
  (at level 61, right associativity) : prog_scope.
Local Open Scope prog_scope.

Definition wait (ms : Z) : M unit := emit (EvWait ms).
Definition ESP_LOGI (tag msg : string) : M unit := emit (EvLog LOGI tag msg []).
Definition ESP_LOGW (tag msg : string) : M unit := emit (EvLog LOGW tag msg []).
Definition ESP_LOGE (tag msg : string) : M unit := emit (EvLog LOGE tag msg []).

(** ** receiverTask, lines 66-79 *)

Inductive Reaction : Type :=
| MasterError     (* line 68 *)
| SDOError        (* line 72 *)
| EPOSError       (* line 76 *)
| NoReaction.

(** The three tests, on the value [parseError] returned. *)
Definition is_master_error (p : Z) : bool := p =? 1.
Definition is_sdo_error (p : Z) : bool := p =? 2.
Definition is_epos_error (p : Z) : bool := negb (Z.land p 124 =? 0).

(** The if / else-if chain applied to the code [receiver] returned. *)
Definition receiverTask_reaction (lib : EPOS4) (error_code : ERROR_CODE_t) : Reaction :=
  if is_master_error (parseError lib error_code) then MasterError
  else if is_sdo_error (parseError lib error_code) then SDOError
  else if is_epos_error (parseError lib error_code) then EPOSError
  else NoReaction.

Section Demo.

(** Declared in EPOS4Class.hpp and FreeRTOSConfig.h, not in the
    repository. *)
Variable MASTER_ERROR_CODE_GENERIC_ERROR : ERROR_CODE_t.
Variable configTICK_RATE_HZ : Z.

(** ** PDOHelper, lines 91-128 *)

Definition resetNumPDOMapped (node : EPOS4) : M ERROR_CODE_t :=
  answer EvResetNumPDOMapped (resetNumPDOMapped_ret node).

Definition configPDO (node : EPOS4) (name : string) (cfg : PDO_MAPPING_t)
  : M ERROR_CODE_t :=
  answer (EvConfigPDO name cfg) (configPDO_ret node name cfg).

Definition sendSDO (node : EPOS4) (obj : OD) (value : Z) (third : option Z)
  : M ERROR_CODE_t :=
  answer (EvSendSDO obj value third) (sendSDO_ret node obj value).

Definition configuration_RXPDO1 : PDO_MAPPING_t :=
  mkPDO_MAPPING RXPDO1 PDO_TRANSMISSION_MODE_SYNC [EPOS_OD_CONTROLWORD] [].
Definition configuration_RXPDO2 : PDO_MAPPING_t :=
  mkPDO_MAPPING RXPDO2 PDO_TRANSMISSION_MODE_ASYNC [EPOS_OD_PROFILE_VELOCITY] [].
Definition configuration_TXPDO1 : PDO_MAPPING_t :=
  mkPDO_MAPPING TXPDO1 PDO_TRANSMISSION_MODE_ASYNC
    [EPOS_OD_STATUSWORD; EPOS_OD_POSITION_ACTUAL_VALUE] [].

Definition PDOHelper (node : EPOS4) : M ERROR_CODE_t :=
  resetNumPDOMapped node ;;
  wait 100 ;;
  let ret0 := 0 in
  r1 <- configPDO node RxPDO_ControlWord_Synchronous configuration_RXPDO1 ;;
  let ret1 := uint32 (Z.lor ret0 r1) in
  r2 <- configPDO node RxPDO_Profile_Velocity configuration_RXPDO2 ;;
  let ret2 := uint32 (Z.lor ret1 r2) in
  r3 <- configPDO node TxPDO_StatusWord_Position configuration_TXPDO1 ;;
  let ret3 := uint32 (Z.lor ret2 r3) in
  sendSDO node EPOS_OD_TRANSMIT_PDO_1_PARAMETER_INHIBIT_TIME_TXPDO_1 100 (Some 1) ;;
  if negb (ret3 =? 0) then ret MASTER_ERROR_CODE_GENERIC_ERROR
  else ret ERROR_CODE_NOERROR.

(** ** heartbeatTask, lines 133-152 *)

Definition sendHeartbeat (lib : EPOS4) (round : nat) (node : Z) : M ERROR_CODE_t :=
  answer (EvSendHeartbeat node) (sendHeartbeat_ret lib round node).

(** FreeRTOS [xTaskDelayUntil (&previousWakeTime, increment)]: the task
    sleeps until tick [previousWakeTime + increment] (in the 32-bit
    [TickType_t]) and that tick becomes the new [previousWakeTime]. *)
Definition xTaskDelayUntil (previousWakeTime increment : Z) : M Z :=
  let wake := uint32 (previousWakeTime + increment) in
  answer (EvTaskDelayUntil wake) wake.

Definition sendFrequency : Z := configTICK_RATE_HZ.

Fixpoint heartbeat_loop (lib : EPOS4) (fuel : nat) (round : nat)
    (hbLastSendTime : Z) : M unit :=
  match fuel with
  | O => spin InHeartbeatLoop
  | S fuel' =>
      r <- sendHeartbeat lib round masterNodeID ;;
      (if negb (r =? ERROR_CODE_NOERROR)
       then ESP_LOGI "heartbeatTask" "HEARTBEAT_SEND_ERROR"
       else ret tt) ;;
      t <- xTaskDelayUntil hbLastSendTime sendFrequency ;;
      heartbeat_loop lib fuel' (S round) t
  end.

(** [xTaskGetTickCount] is the tick at which the task starts. *)
Definition heartbeatTask (lib : EPOS4) (xTaskGetTickCount : Z) (fuel : nat)
  : M unit :=
  ESP_LOGI "heartbeatTask" "Starting Task" ;;
  let hbLastSendTime := xTaskGetTickCount in
  heartbeat_loop lib fuel 0%nat hbLastSendTime.

(** ** app_main, lines 164-319 *)

Definition changeNMTState (lib : EPOS4) (c : NMT_COMMAND) : M ERROR_CODE_t :=
  answer (EvChangeNMTState c) (changeNMTState_ret lib c).

Definition getODpair (motor : EPOS4) (obj : OD) : M (Z * Z) :=
  answer (EvGetODpair obj) (getODpair_ret motor obj).

Definition setControlWordBits (motor : EPOS4) (bits : list CW_BITS)
    (values : list bool) : M Z :=
  answer (EvSetControlWordBits bits values) (setControlWordBits_ret motor bits values).

Definition getBitFromStatusWord (motor : EPOS4) (round : nat) (bit : SW_BITS) : M Z :=
  answer (EvGetBitFromStatusWord bit) (getBitFromStatusWord_ret motor round bit).

Definition sendRxPDO (name : string) (values : list Z) : M unit :=
  emit (EvSendRxPDO name values).

Definition moveToTargetPosition (pos : Z) (a b : bool) : M unit :=
  emit (EvMoveToTargetPosition pos a b).

(** Lines 240-250: the profile read through the cache, each value with its
    status; [status] and [statusAll] are [uint8_t]. *)
Definition save_profile (motor : EPOS4) : M (Z * Z * Z * Z) :=
  p <- getODpair motor EPOS_OD_PROFILE_VELOCITY ;;
  let oldVel := fst p in
  let status := uint8 (snd p) in
  let statusAll := status in
  p <- getODpair motor EPOS_OD_PROFILE_ACCELERATION ;;
  let oldAccel := fst p in
  let status := uint8 (snd p) in
  let statusAll := uint8 (Z.land statusAll status) in
  p <- getODpair motor EPOS_OD_PROFILE_DECELERATION ;;
  let oldDecel := fst p in
  let status := uint8 (snd p) in
  let statusAll := uint8 (Z.land statusAll status) in
  ret (statusAll, oldVel, oldAccel, oldDecel).

(** Lines 253-266: the new profile and the control word on the synchronous
    RxPDO. *)
Definition configure_sync_motion (motor : EPOS4) : M unit :=
  sendRxPDO RxPDO_Profile_Velocity [120] ;;
  sendSDO motor EPOS_OD_PROFILE_ACCELERATION 60 (Some 1) ;;
  sendSDO motor EPOS_OD_PROFILE_DECELERATION 60 (Some 1) ;;
  sendSDO motor EPOS_OD_TARGET_POSITION 4000 (Some 1) ;;
  cw <- setControlWordBits motor
          [CW_BITS_NEW_SET_POINT; CW_BITS_ABS_OR_RELATIVE; CW_BITS_HALT]
          [true; true; false] ;;
  sendRxPDO RxPDO_ControlWord_Synchronous [cw] ;;
  ESP_LOGI "SYNC Motion" "Move configured, waiting for Sync Object..." ;;
  wait 5000.

(** Lines 268-271. *)
Definition start_sync_motion (motor : EPOS4) : M unit :=
  emit EvBroadcastSync ;;
  ESP_LOGI "SYNC Motion" "Sent Sync, Motion Started" ;;
  wait 50 ;;
  cw <- setControlWordBits motor [CW_BITS_NEW_SET_POINT] [false] ;;
  sendSDO motor EPOS_OD_CONTROLWORD cw None ;;
  ret tt.

(** Lines 274-282: [round] counts the polls already made. *)
Fixpoint target_reached_loop (motor : EPOS4) (fuel : nat) (round : nat) : M unit :=
  match fuel with
  | O => spin InTargetReachedLoop
  | S fuel' =>
      b <- getBitFromStatusWord motor round SW_BITS_TARGET_REACHED ;;
      if negb (b =? 1) then
        emit (EvGetODvalue EPOS_OD_VELOCITY_ACTUAL_VALUES_VELOCITY_ACTUAL_VALUE_AVERAGED) ;;
        emit (EvGetODvalue EPOS_OD_POSITION_ACTUAL_VALUE) ;;
        wait 100 ;;
        emit (EvLog LOGI "SYNC Motion" "speed: %ld, position: %ld"
                [localOD_ret motor round EPOS_OD_VELOCITY_ACTUAL_VALUE;
                 localOD_ret motor round EPOS_OD_POSITION_ACTUAL_VALUE]) ;;
        target_reached_loop motor fuel' (S round)
      else ret tt
  end.

(** Lines 287-297. *)
Definition return_to_old_profile (motor : EPOS4)
    (statusAll oldVel oldAccel oldDecel : Z) : M unit :=
  if negb (Z.land statusAll 1 =? 0) then
    ESP_LOGI "SYNC Motion" "Returning to Old Profile" ;;
    sendRxPDO RxPDO_Profile_Velocity [oldVel] ;;
    sendSDO motor EPOS_OD_PROFILE_ACCELERATION oldAccel (Some 1) ;;
    sendSDO motor EPOS_OD_PROFILE_DECELERATION oldDecel (Some 1) ;;
    ret tt
  else
    ESP_LOGW "SYNC Motion" "Old Profile invalid".

(** Lines 302-308. *)
Fixpoint demo_loop (fuel : nat) : M unit :=
  match fuel with
  | O => spin InDemoLoop
  | S fuel' =>
      wait 3000 ;;
      ESP_LOGI "DEMO LOOP" "Moving..." ;;
      moveToTargetPosition 500 true true ;;
      ESP_LOGI "DEMO LOOP" "Moved." ;;
      demo_loop fuel'
  end.

(** Lines 315-318. *)
Fixpoint setup_failed_loop (fuel : nat) : M unit :=
  match fuel with
  | O => spin InSetupFailedLoop
  | S fuel' => wait 1000 ;; setup_failed_loop fuel'
  end.

(** Lines 201-308: what runs once the network is operational. *)
Definition motion_demo (motor : EPOS4) (fuel : nat) : M unit :=
  (* Profile Velocity Mode *)
  ESP_LOGI "Axis State" "Enabling..." ;;
  emit EvHalt ;;
  emit EvEnable ;;
  ESP_LOGI "Profile Velocity" "Changing Mode" ;;
  emit (EvSetModeOfOperation EPOS_OPERATION_MODE_PVM) ;;
  ESP_LOGI "Profile Velocity" "Starting Motion..." ;;
  emit (EvMoveToTargetVelocity 120) ;;
  wait 1000 ;;
  emit EvHalt ;;
  ESP_LOGI "Profile Velocity" "Stopping" ;;
  wait 1000 ;;
  (* Profile Position Mode *)
  ESP_LOGI "Profile Position" "Changing Mode" ;;
  emit (EvSetModeOfOperation EPOS_OPERATION_MODE_PPM) ;;
  ESP_LOGI "Profile Position" "Starting Motion..." ;;
  moveToTargetPosition 1000 true true ;;
  ESP_LOGI "Profile Position" "Motion Complete" ;;
  wait 1000 ;;
  (* SYNC motion *)
  saved <- save_profile motor ;;
  let '(statusAll, oldVel, oldAccel, oldDecel) := saved in
  configure_sync_motion motor ;;
  start_sync_motion motor ;;
  target_reached_loop motor fuel 0%nat ;;
  ESP_LOGI "SYNC Motion" "Motion Complete!" ;;
  return_to_old_profile motor statusAll oldVel oldAccel oldDecel ;;
  (* Profile Position Mode Loop *)
  demo_loop fuel.

Definition app_main (motor : EPOS4) (fuel : nat) : M unit :=
  emit EvLogLevelSet ;;
  emit EvTWAISetup ;;
  emit (EvTaskCreate "receiverTask") ;;
  emit (EvTaskCreate "heartbeat") ;;
  emit EvDisable ;;
  emit EvClearError ;;
  r <- changeNMTState motor NMT_COMMAND_GOTO_PRE_OPERATIONAL ;;
  (if r =? ERROR_CODE_NOERROR then
     ESP_LOGI "NMT" "Set to Pre-Operational" ;;
     wait 1000 ;;
     r <- PDOHelper motor ;;
     if r =? ERROR_CODE_NOERROR then
       ESP_LOGI "app_main" "EPOS PDO CONFIGURATION FINISHED" ;;
       emit (EvSetHeartbeatConsumer masterNodeID 1500) ;;
       wait 1000 ;;
       r <- changeNMTState motor NMT_COMMAND_GOTO_OPERATIONAL ;;
       if r =? ERROR_CODE_NOERROR then
         ESP_LOGI "NMT" "Set to Operational" ;;
         wait 1000 ;;
         motion_demo motor fuel
       else ret tt
     else ret tt
   else ret tt) ;;
  ESP_LOGE "DEMO" "Setup Failed!" ;;
  setup_failed_loop fuel.

End Demo.

(** * Vocabulary of the properties *)

(** ** PDOHelper *)

(** The calls of lines 94-121, in program order. *)
Definition PDOHelper_calls : list Event :=
  [ EvResetNumPDOMapped;
    EvWait 100;
    EvConfigPDO RxPDO_ControlWord_Synchronous configuration_RXPDO1;
    EvConfigPDO RxPDO_Profile_Velocity configuration_RXPDO2;
    EvConfigPDO TxPDO_StatusWord_Position configuration_TXPDO1;
    EvSendSDO EPOS_OD_TRANSMIT_PDO_1_PARAMETER_INHIBIT_TIME_TXPDO_1 100 (Some 1) ].

(** The accumulated [ret] of line 123. *)
Definition PDOHelper_ret (node : EPOS4) : Z :=
  uint32 (Z.lor
    (uint32 (Z.lor
      (uint32 (Z.lor 0
        (configPDO_ret node RxPDO_ControlWord_Synchronous configuration_RXPDO1)))
      (configPDO_ret node RxPDO_Profile_Velocity configuration_RXPDO2)))
    (configPDO_ret node TxPDO_StatusWord_Position configuration_TXPDO1)).

(** The configuration writes [PDOHelper] issues. *)
Definition configPDO_succeed (node : EPOS4) : Prop :=
  configPDO_ret node RxPDO_ControlWord_Synchronous configuration_RXPDO1 = ERROR_CODE_NOERROR /\
  configPDO_ret node RxPDO_Profile_Velocity configuration_RXPDO2 = ERROR_CODE_NOERROR /\
  configPDO_ret node TxPDO_StatusWord_Position configuration_TXPDO1 = ERROR_CODE_NOERROR.

Definition inhibit_time_write_succeeds (node : EPOS4) : Prop :=
  sendSDO_ret node EPOS_OD_TRANSMIT_PDO_1_PARAMETER_INHIBIT_TIME_TXPDO_1 100 = ERROR_CODE_NOERROR.

(** [ERROR_CODE_t] values fit the 32 bits of [ret]. *)
Definition codes_32bit (node : EPOS4) : Prop :=
  forall name cfg, 0 <= configPDO_ret node name cfg < 2 ^ 32.

Definition is_configuration_write (e : Event) : bool :=
  match e with
  | EvConfigPDO _ _ | EvSendSDO _ _ _ => true
  | _ => false
  end.

(** ** receiverTask *)

(** The branches whose test holds on a parsed value, in the order of the
    chain. *)
Definition matching_tests (p : Z) : list Reaction :=
  (if is_master_error p then [MasterError] else []) ++
  (if is_sdo_error p then [SDOError] else []) ++
  (if is_epos_error p then [EPOSError] else []).


(** ** The saved profile *)

(** The validity flag of a status returned by [getODpair]: its bit 0, the
    bit line 287 looks at. *)
Definition valid_flag (status : Z) : bool := Z.testbit status 0.

Definition all_valid (motor : EPOS4) : bool :=
  valid_flag (snd (getODpair_ret motor EPOS_OD_PROFILE_VELOCITY)) &&
  valid_flag (snd (getODpair_ret motor EPOS_OD_PROFILE_ACCELERATION)) &&
  valid_flag (snd (getODpair_ret motor EPOS_OD_PROFILE_DECELERATION)).

(** The statuses as the three assignments of lines 245-250 combine them. *)
Definition saved_statusAll (motor : EPOS4) : Z :=
  uint8 (Z.land
    (uint8 (Z.land
      (uint8 (snd (getODpair_ret motor EPOS_OD_PROFILE_VELOCITY)))
      (uint8 (snd (getODpair_ret motor EPOS_OD_PROFILE_ACCELERATION)))))
    (uint8 (snd (getODpair_ret motor EPOS_OD_PROFILE_DECELERATION)))).

Definition oldVel (motor : EPOS4) : Z := fst (getODpair_ret motor EPOS_OD_PROFILE_VELOCITY).
Definition oldAccel (motor : EPOS4) : Z := fst (getODpair_ret motor EPOS_OD_PROFILE_ACCELERATION).
Definition oldDecel (motor : EPOS4) : Z := fst (getODpair_ret motor EPOS_OD_PROFILE_DECELERATION).

(** The writes of lines 290-292. *)
Definition old_profile_writes (motor : EPOS4) : list Event :=
  [ EvSendRxPDO RxPDO_Profile_Velocity [oldVel motor];
    EvSendSDO EPOS_OD_PROFILE_ACCELERATION (oldAccel motor) (Some 1);
    EvSendSDO EPOS_OD_PROFILE_DECELERATION (oldDecel motor) (Some 1) ].

Definition is_write (e : Event) : bool :=
  match e with
  | EvSendRxPDO _ _ | EvSendSDO _ _ _ => true
  | _ => false
  end.

(** ** Shapes of the traces of app_main *)

(** A computation with calls made before it. *)
Definition prepend {A : Type} (t : list Event) (c : M A) : M A :=
  (t ++ fst c, snd c).

(** One round of the loop of lines 274-282 that does not leave it. *)
Definition poll_round (motor : EPOS4) (round : nat) : list Event :=
  [ EvGetBitFromStatusWord SW_BITS_TARGET_REACHED;
    EvGetODvalue EPOS_OD_VELOCITY_ACTUAL_VALUES_VELOCITY_ACTUAL_VALUE_AVERAGED;
    EvGetODvalue EPOS_OD_POSITION_ACTUAL_VALUE;
    EvWait 100;
    EvLog LOGI "SYNC Motion" "speed: %ld, position: %ld"
      [localOD_ret motor round EPOS_OD_VELOCITY_ACTUAL_VALUE;
       localOD_ret motor round EPOS_OD_POSITION_ACTUAL_VALUE] ].

Definition poll_rounds (motor : EPOS4) (round n : nat) : list Event :=
  flat_map (poll_round motor) (seq round n).

(** The answer of the poll number [round] lets the loop end. *)
Definition target_reached_at (motor : EPOS4) (round : nat) : bool :=
  getBitFromStatusWord_ret motor round SW_BITS_TARGET_REACHED =? 1.

(** One round of the loop of lines 302-308. *)
Definition demo_round : list Event :=
  [ EvWait 3000;
    EvLog LOGI "DEMO LOOP" "Moving..." [];
    EvMoveToTargetPosition 500 true true;
    EvLog LOGI "DEMO LOOP" "Moved." [] ].

Definition demo_rounds (n : nat) : list Event := concat (repeat demo_round n).

(** Lines 313-318. *)
Definition setup_failed_calls (n : nat) : list Event :=
  EvLog LOGE "DEMO" "Setup Failed!" [] :: repeat (EvWait 1000) n.

(** Lines 167-180. *)
Definition startup_calls : list Event :=
  [ EvLogLevelSet;
    EvTWAISetup;
    EvTaskCreate "receiverTask";
    EvTaskCreate "heartbeat";
    EvDisable;
    EvClearError;
    EvChangeNMTState NMT_COMMAND_GOTO_PRE_OPERATIONAL ].

(** Lines 183-186. *)
Definition pdo_setup_calls : list Event :=
  [ EvLog LOGI "NMT" "Set to Pre-Operational" [];
    EvWait 1000 ] ++ PDOHelper_calls.

(** Lines 189-195. *)
Definition operational_calls : list Event :=
  [ EvLog LOGI "app_main" "EPOS PDO CONFIGURATION FINISHED" [];
    EvSetHeartbeatConsumer masterNodeID 1500;
    EvWait 1000;
    EvChangeNMTState NMT_COMMAND_GOTO_OPERATIONAL ].

(** Lines 198-229. *)
Definition profile_mode_calls : list Event :=
  [ EvLog LOGI "NMT" "Set to Operational" [];
    EvWait 1000;
    EvLog LOGI "Axis State" "Enabling..." [];
    EvHalt;
    EvEnable;
    EvLog LOGI "Profile Velocity" "Changing Mode" [];
    EvSetModeOfOperation EPOS_OPERATION_MODE_PVM;
    EvLog LOGI "Profile Velocity" "Starting Motion..." [];
    EvMoveToTargetVelocity 120;
    EvWait 1000;
    EvHalt;
    EvLog LOGI "Profile Velocity" "Stopping" [];
    EvWait 1000;
    EvLog LOGI "Profile Position" "Changing Mode" [];
    EvSetModeOfOperation EPOS_OPERATION_MODE_PPM;
    EvLog LOGI "Profile Position" "Starting Motion..." [];
    EvMoveToTargetPosition 1000 true true;
    EvLog LOGI "Profile Position" "Motion Complete" [];
    EvWait 1000 ].

(** Lines 245-249. *)
Definition save_profile_calls : list Event :=
  [ EvGetODpair EPOS_OD_PROFILE_VELOCITY;
    EvGetODpair EPOS_OD_PROFILE_ACCELERATION;
    EvGetODpair EPOS_OD_PROFILE_DECELERATION ].

(** The control word line 260 sends. *)
Definition sync_control_word (motor : EPOS4) : Z :=
  setControlWordBits_ret motor
    [CW_BITS_NEW_SET_POINT; CW_BITS_ABS_OR_RELATIVE; CW_BITS_HALT]
    [true; true; false].

(** Lines 253-266. *)
Definition configure_sync_calls (motor : EPOS4) : list Event :=
  [ EvSendRxPDO RxPDO_Profile_Velocity [120];
    EvSendSDO EPOS_OD_PROFILE_ACCELERATION 60 (Some 1);
    EvSendSDO EPOS_OD_PROFILE_DECELERATION 60 (Some 1);
    EvSendSDO EPOS_OD_TARGET_POSITION 4000 (Some 1);
    EvSetControlWordBits
      [CW_BITS_NEW_SET_POINT; CW_BITS_ABS_OR_RELATIVE; CW_BITS_HALT]
      [true; true; false];
    EvSendRxPDO RxPDO_ControlWord_Synchronous [sync_control_word motor];
    EvLog LOGI "SYNC Motion" "Move configured, waiting for Sync Object..." [];
    EvWait 5000 ].

(** Lines 269-271, after the SYNC. *)
Definition after_sync_calls (motor : EPOS4) : list Event :=
  [ EvLog LOGI "SYNC Motion" "Sent Sync, Motion Started" [];
    EvWait 50;
    EvSetControlWordBits [CW_BITS_NEW_SET_POINT] [false];
    EvSendSDO EPOS_OD_CONTROLWORD
      (setControlWordBits_ret motor [CW_BITS_NEW_SET_POINT] [false]) None ].

(** Lines 284-297. *)
Definition restore_calls (motor : EPOS4) : list Event :=
  EvLog LOGI "SYNC Motion" "Motion Complete!" [] ::
  (if all_valid motor
   then EvLog LOGI "SYNC Motion" "Returning to Old Profile" [] :: old_profile_writes motor
   else [ EvLog LOGW "SYNC Motion" "Old Profile invalid" [] ]).

(** The three steps of the setup. *)
Definition pre_operational_ok (motor : EPOS4) : bool :=
  changeNMTState_ret motor NMT_COMMAND_GOTO_PRE_OPERATIONAL =? ERROR_CODE_NOERROR.

Definition PDOHelper_ok (G : ERROR_CODE_t) (motor : EPOS4) : bool :=
  match outcome (PDOHelper G motor) with
  | inl r => r =? ERROR_CODE_NOERROR
  | inr _ => false
  end.

Definition operational_ok (motor : EPOS4) : bool :=
  changeNMTState_ret motor NMT_COMMAND_GOTO_OPERATIONAL =? ERROR_CODE_NOERROR.

Definition setup_ok (G : ERROR_CODE_t) (motor : EPOS4) : bool :=
  pre_operational_ok motor && PDOHelper_ok G motor && operational_ok motor.

(** The calls up to the point where a failed setup leaves the nested
    conditions of lines 180-195. *)
Definition failed_setup_calls (G : ERROR_CODE_t) (motor : EPOS4) : list Event :=
  if negb (pre_operational_ok motor) then startup_calls
  else if negb (PDOHelper_ok G motor) then startup_calls ++ pdo_setup_calls
  else startup_calls ++ pdo_setup_calls ++ operational_calls.

(** The calls of a successful setup and of the motion up to the poll
    loop. *)
Definition motion_calls (motor : EPOS4) : list Event :=
  startup_calls ++ pdo_setup_calls ++ operational_calls ++ profile_mode_calls ++
  save_profile_calls ++ configure_sync_calls motor ++
  EvBroadcastSync :: after_sync_calls motor.

(** The motion commands C1 lists. *)
Definition is_motion_command (e : Event) : bool :=
  match e with
  | EvEnable
  | EvMoveToTargetVelocity _
  | EvMoveToTargetPosition _ _ _
  | EvSendRxPDO _ _
  | EvBroadcastSync => true
  | _ => false
  end.

(** A poll of the status word. *)
Definition is_poll (e : Event) : bool :=
  match e with
  | EvGetBitFromStatusWord _ => true
  | _ => false
  end.

(** The calls of a successful setup and of the motion up to line 266,
    before the SYNC. *)
Definition before_sync_calls (motor : EPOS4) : list Event :=
  startup_calls ++ pdo_setup_calls ++ operational_calls ++ profile_mode_calls ++
  save_profile_calls ++ configure_sync_calls motor.

(** The calls made from the poll loop on: those of a round of the poll
    loop, of lines 284-297, or of a round of the demo loop. *)
Definition loop_event (motor : EPOS4) (e : Event) : Prop :=
  (exists i : nat, In e (poll_round motor i)) \/
  In e (restore_calls motor) \/
  In e demo_round.

(** ** heartbeatTask *)

(** Round [i] of the loop of lines 142-151, for a task started at tick
    [t0]: the heartbeat, the log of a failed send, the delay. *)
Definition heartbeat_round (lib : EPOS4) (rate t0 : Z) (i : nat) : list Event :=
  EvSendHeartbeat masterNodeID ::
  (if negb (sendHeartbeat_ret lib i masterNodeID =? ERROR_CODE_NOERROR)
   then [EvLog LOGI "heartbeatTask" "HEARTBEAT_SEND_ERROR" []]
   else []) ++
  [EvTaskDelayUntil (uint32 (t0 + Z.of_nat (S i) * rate))].

Definition heartbeat_rounds (lib : EPOS4) (rate t0 : Z) (round n : nat) : list Event :=
  flat_map (heartbeat_round lib rate t0) (seq round n).

Definition is_heartbeat (e : Event) : bool :=
  match e with
  | EvSendHeartbeat _ => true
  | _ => false
  end.

Definition is_delay (e : Event) : bool :=
  match e with
  | EvTaskDelayUntil _ => true
  | _ => false
  end.

(** The time [ticks] ticks take, in milliseconds, at a tick rate of
    [configTICK_RATE_HZ] ticks per second. *)
Definition ticks_to_ms (configTICK_RATE_HZ ticks : Z) : Z :=
  ticks * 1000 / configTICK_RATE_HZ.

Definition heartbeat_period_ms (configTICK_RATE_HZ : Z) : Z :=
  ticks_to_ms configTICK_RATE_HZ (sendFrequency configTICK_RATE_HZ).

(** The timeout line 191 asks the drive to watch the master with. *)
Definition heartbeat_consumer_timeout_ms : Z := 1500.

(** The heartbeats of a trace of the heartbeat task, each with the
    Node-ID it is sent under and the tick at which the task is awake to
    send it: [now] at first, then the tick of the last [xTaskDelayUntil]
    before it. *)
Fixpoint send_ticks (now : Z) (t : list Event) : list (Z * Z) :=
  match t with
  | [] => []
  | EvSendHeartbeat node :: t' => (node, now) :: send_ticks now t'
  | EvTaskDelayUntil wake :: t' => send_ticks wake t'
  | _ :: t' => send_ticks now t'
  end.

(** The time between each tick of a list and the next, in milliseconds,
    on the 32-bit tick counter. *)
Fixpoint gaps_ms (configTICK_RATE_HZ : Z) (ticks : list Z) : list Z :=
  match ticks with
  | [] => []
  | a :: rest =>
      match rest with
      | [] => []
      | b :: _ => ticks_to_ms configTICK_RATE_HZ (uint32 (b - a)) ::
                  gaps_ms configTICK_RATE_HZ rest
      end
  end.

(** The times between consecutive heartbeats of a run of the heartbeat
    task started at tick [t0]. *)
Definition heartbeat_gaps_ms (configTICK_RATE_HZ : Z) (lib : EPOS4) (t0 : Z) (n : nat)
  : list Z :=
  gaps_ms configTICK_RATE_HZ
    (map snd (send_ticks t0 (trace (heartbeatTask configTICK_RATE_HZ lib t0 n)))).

(** ** Sample answers of the library, for concrete runs *)

(** A drive on which every call succeeds, every cached value is valid and
    the target is reached at the third poll; its [parseError] hands the
    code through. *)
Definition motor_ok : EPOS4 :=
  {| changeNMTState_ret := fun _ => ERROR_CODE_NOERROR;
     resetNumPDOMapped_ret := ERROR_CODE_NOERROR;
     configPDO_ret := fun _ _ => ERROR_CODE_NOERROR;
     sendSDO_ret := fun _ _ => ERROR_CODE_NOERROR;
     getODpair_ret := fun obj =>
       match obj with
       | EPOS_OD_PROFILE_VELOCITY => (3000, 1)
       | EPOS_OD_PROFILE_ACCELERATION => (10000, 1)
       | EPOS_OD_PROFILE_DECELERATION => (10000, 1)
       | _ => (0, 0)
       end;
     setControlWordBits_ret := fun bits _ =>
       match bits with
       | [CW_BITS_NEW_SET_POINT] => 47
       | _ => 63
       end;
     getBitFromStatusWord_ret := fun round _ => if (round <? 2)%nat then 0 else 1;
     localOD_ret := fun _ _ => 0;
     sendHeartbeat_ret := fun _ _ => ERROR_CODE_NOERROR;
     parseError := fun code => code |}.

(** Some non-zero code, standing for a failed call. *)
Definition some_error : ERROR_CODE_t := 1.

(** As [motor_ok], but the write of the inhibit time fails. *)
Definition motor_inhibit_fails : EPOS4 :=
  {| changeNMTState_ret := changeNMTState_ret motor_ok;
     resetNumPDOMapped_ret := resetNumPDOMapped_ret motor_ok;
     configPDO_ret := configPDO_ret motor_ok;
     sendSDO_ret := fun obj _ =>
       match obj with
       | EPOS_OD_TRANSMIT_PDO_1_PARAMETER_INHIBIT_TIME_TXPDO_1 => some_error
       | _ => ERROR_CODE_NOERROR
       end;
     getODpair_ret := getODpair_ret motor_ok;
     setControlWordBits_ret := setControlWordBits_ret motor_ok;
     getBitFromStatusWord_ret := getBitFromStatusWord_ret motor_ok;
     localOD_ret := localOD_ret motor_ok;
     sendHeartbeat_ret := sendHeartbeat_ret motor_ok;
     parseError := parseError motor_ok |}.

(** As [motor_ok], but the status word never shows the target reached. *)
Definition motor_never_reached : EPOS4 :=
  {| changeNMTState_ret := changeNMTState_ret motor_ok;
     resetNumPDOMapped_ret := resetNumPDOMapped_ret motor_ok;
     configPDO_ret := configPDO_ret motor_ok;
     sendSDO_ret := sendSDO_ret motor_ok;
     getODpair_ret := getODpair_ret motor_ok;
     setControlWordBits_ret := setControlWordBits_ret motor_ok;
     getBitFromStatusWord_ret := fun _ _ => 0;
     localOD_ret := localOD_ret motor_ok;
     sendHeartbeat_ret := sendHeartbeat_ret motor_ok;
     parseError := parseError motor_ok |}.

(** As [motor_ok], but the second PDO configuration is refused. *)
Definition motor_pdo_fails : EPOS4 :=
  {| changeNMTState_ret := changeNMTState_ret motor_ok;
     resetNumPDOMapped_ret := resetNumPDOMapped_ret motor_ok;
     configPDO_ret := fun _ cfg =>
       match pdo_channel cfg with
       | RXPDO2 => some_error
       | _ => ERROR_CODE_NOERROR
       end;
     sendSDO_ret := sendSDO_ret motor_ok;
     getODpair_ret := getODpair_ret motor_ok;
     setControlWordBits_ret := setControlWordBits_ret motor_ok;
     getBitFromStatusWord_ret := getBitFromStatusWord_ret motor_ok;
     localOD_ret := localOD_ret motor_ok;
     sendHeartbeat_ret := sendHeartbeat_ret motor_ok;
     parseError := parseError motor_ok |}.

(** A drive on which every second heartbeat cannot be sent. *)
Definition motor_heartbeat_fails : EPOS4 :=
  {| changeNMTState_ret := changeNMTState_ret motor_ok;
     resetNumPDOMapped_ret := resetNumPDOMapped_ret motor_ok;
     configPDO_ret := configPDO_ret motor_ok;
     sendSDO_ret := sendSDO_ret motor_ok;
     getODpair_ret := getODpair_ret motor_ok;
     setControlWordBits_ret := setControlWordBits_ret motor_ok;
     getBitFromStatusWord_ret := getBitFromStatusWord_ret motor_ok;
     localOD_ret := localOD_ret motor_ok;
     sendHeartbeat_ret := fun round _ => if Nat.even round then some_error else ERROR_CODE_NOERROR;
     parseError := parseError motor_ok |}.

(** As [motor_ok], but the cached deceleration comes without its validity
    flag (status 2: bit 0 clear). *)
Definition motor_stale_profile : EPOS4 :=
  {| changeNMTState_ret := changeNMTState_ret motor_ok;
     resetNumPDOMapped_ret := resetNumPDOMapped_ret motor_ok;
     configPDO_ret := configPDO_ret motor_ok;
     sendSDO_ret := sendSDO_ret motor_ok;
     getODpair_ret := fun obj =>
       match obj with
       | EPOS_OD_PROFILE_DECELERATION => (10000, 2)
       | _ => getODpair_ret motor_ok obj
       end;
     setControlWordBits_ret := setControlWordBits_ret motor_ok;
     getBitFromStatusWord_ret := getBitFromStatusWord_ret motor_ok;
     localOD_ret := localOD_ret motor_ok;
     sendHeartbeat_ret := sendHeartbeat_ret motor_ok;
     parseError := parseError motor_ok |}.

(** The number of calls [app_main] makes before [broadcastSync] when the
    setup succeeds. *)
Definition calls_before_sync : nat := length (before_sync_calls motor_ok).

(** * The rest of main.cpp *)

(** ** receiverTask, lines 49-82 *)

(** A frame of the TWAI driver, as far as the program handles it: it is
    only passed on. *)
Record twai_message_t : Type := mk_twai_message {
  identifier : Z;
  data : list Z
}.

(** The calls of the receiver task. *)
Inductive RxEvent : Type :=
| RxLog (tag msg : string)
| RxTwaiReceive (timeout_ms : Z)
| RxReceiver (message : twai_message_t).

(** The bodies of the three branches of lines 68-79 hold a comment only. *)
Definition error_reaction (r : Reaction) : list RxEvent :=
  match r with
  | MasterError => []
  | SDOError => []
  | EPOSError => []
  | NoReaction => []
  end.

(** The loop of lines 58-81.  [twai_receive round] is the frame of the
    attempt number [round] when the driver returned [ESP_OK], and [None]
    when it returned anything else (the wait of 1000 ms ran out);
    [receiver] is what [motor.receiver] returns on a frame. *)
Fixpoint receiver_loop (lib : EPOS4) (receiver : twai_message_t -> ERROR_CODE_t)
    (twai_receive : nat -> option twai_message_t) (fuel round : nat) : list RxEvent :=
  match fuel with
  | O => []
  | S fuel' =>
      RxTwaiReceive 1000 ::
      match twai_receive round with
      | Some message =>
          let error_code := receiver message in
          RxReceiver message ::
          error_reaction (receiverTask_reaction lib error_code) ++
          receiver_loop lib receiver twai_receive fuel' (S round)
      | None => receiver_loop lib receiver twai_receive fuel' (S round)
      end
  end.

Definition receiverTask (lib : EPOS4) (receiver : twai_message_t -> ERROR_CODE_t)
    (twai_receive : nat -> option twai_message_t) (fuel : nat) : list RxEvent :=
  RxLog "receiverTask" "Starting Task" ::
  receiver_loop lib receiver twai_receive fuel 0.

(** ** Vocabulary of the further properties *)

(** The frames handed to [motor.receiver], in the order of the calls. *)
Definition delivered (t : list RxEvent) : list twai_message_t :=
  flat_map (fun e => match e with RxReceiver m => [m] | _ => [] end) t.

(** The frames the driver returned at the attempts [round], ...,
    [round + n - 1]. *)
Definition received (twai_receive : nat -> option twai_message_t) (round n : nat)
  : list twai_message_t :=
  flat_map (fun k => match twai_receive k with Some m => [m] | None => [] end)
    (seq round n).

Definition is_twai_receive (e : RxEvent) : bool :=
  match e with
  | RxTwaiReceive _ => true
  | _ => false
  end.

(** The parsed values of 8 bits on which no branch of [receiverTask] is
    taken. *)
Definition unclassified_8bit : list Z := [0; 3; 128; 129; 130; 131].

(** A sample bus: a frame at every attempt but the second. *)
Definition sample_bus (round : nat) : option twai_message_t :=
  match round with
  | 1%nat => None
  | _ => Some (mk_twai_message (1408 + Z.of_nat round) [Z.of_nat round])
  end.

(** ** app_main *)

(** The commands that make the motor move or arm a move. *)
Definition is_move_command (e : Event) : bool :=
  match e with
  | EvMoveToTargetVelocity _
  | EvMoveToTargetPosition _ _ _
  | EvSendRxPDO _ _
  | EvBroadcastSync => true
  | _ => false
  end.

Definition is_sendRxPDO (e : Event) : bool :=
  match e with
  | EvSendRxPDO _ _ => true
  | _ => false
  end.

(** The calls of a successful setup up to line 205, before [enable]. *)
Definition before_enable_calls : list Event :=
  startup_calls ++ pdo_setup_calls ++ operational_calls ++ firstn 4 profile_mode_calls.

(** The calls of lines 208-271, after [enable]. *)
Definition after_enable_calls (motor : EPOS4) : list Event :=
  skipn 5 profile_mode_calls ++ save_profile_calls ++ configure_sync_calls motor ++
  EvBroadcastSync :: after_sync_calls motor.

(** The calls up to the second [configPDO] of [PDOHelper], line 110. *)
Definition before_TxPDO_calls : list Event :=
  startup_calls ++
  [ EvLog LOGI "NMT" "Set to Pre-Operational" [];
    EvWait 1000;
    EvResetNumPDOMapped;
    EvWait 100;
    EvConfigPDO RxPDO_ControlWord_Synchronous configuration_RXPDO1;
    EvConfigPDO RxPDO_Profile_Velocity configuration_RXPDO2 ].

(** The calls of lines 120-271 of a successful setup. *)
Definition after_TxPDO_calls (motor : EPOS4) : list Event :=
  EvSendSDO EPOS_OD_TRANSMIT_PDO_1_PARAMETER_INHIBIT_TIME_TXPDO_1 100 (Some 1) ::
  operational_calls ++ profile_mode_calls ++ save_profile_calls ++
  configure_sync_calls motor ++ EvBroadcastSync :: after_sync_calls motor.

Definition is_error_log (e : Event) : bool :=
  match e with
  | EvLog LOGE _ _ _ => true
  | _ => false
  end.

Definition is_getODvalue (e : Event) : bool :=
  match e with
  | EvGetODvalue _ => true
  | _ => false
  end.

(** The move of the demo loop, line 306. *)
Definition is_demo_move (e : Event) : bool :=
  match e with
  | EvMoveToTargetPosition pos true true => pos =? 500
  | _ => false
  end.

Definition is_motion_complete_log (e : Event) : bool :=
  match e with
  | EvLog LOGI _ msg _ => String.eqb msg "Motion Complete!"
  | _ => false
  end.

(** The calls [app_main] makes once, before the setup. *)
Definition is_startup_call (e : Event) : bool :=
  match e with
  | EvLogLevelSet | EvTWAISetup | EvTaskCreate _ | EvDisable | EvClearError => true
  | _ => false
  end.

(** The statuses [getODpair] returned with the three profile values. *)
Definition status_of (motor : EPOS4) (obj : OD) : Z := snd (getODpair_ret motor obj).

Definition is_flag (status : Z) : Prop := status = 0 \/ status = 1.

(** ** heartbeatTask *)

Definition is_send_error_log (e : Event) : bool :=
  match e with
  | EvLog LOGI _ msg _ => String.eqb msg "HEARTBEAT_SEND_ERROR"
  | _ => false
  end.

(** The rounds, among the first [n], in which [sendHeartbeat] failed. *)
Definition send_failed (lib : EPOS4) (k : nat) : bool :=
  negb (sendHeartbeat_ret lib k masterNodeID =? ERROR_CODE_NOERROR).

Definition failed_sends (lib : EPOS4) (n : nat) : list nat :=
  filter (send_failed lib) (seq 0 n).

(** The tick up to which round [k] of the heartbeat task sleeps. *)
Definition wake_tick (configTICK_RATE_HZ t0 : Z) (k : nat) : Z :=
  uint32 (t0 + Z.of_nat (S k) * configTICK_RATE_HZ).

(** ** app_main: the mode of operation *)

(** The mode of operation set last in a trace, [m] if none is set. *)
Fixpoint mode_after (m : option OPERATION_MODE) (t : list Event) : option OPERATION_MODE :=
  match t with
  | [] => m
  | EvSetModeOfOperation m' :: t' => mode_after (Some m') t'
  | _ :: t' => mode_after m t'
  end.

(** The mode a command works in: a target velocity belongs to the profile
    velocity mode, a target position and the SYNC that starts the
    position move to the profile position mode. *)
Definition required_mode (e : Event) : option OPERATION_MODE :=
  match e with
  | EvMoveToTargetVelocity _ => Some EPOS_OPERATION_MODE_PVM
  | EvMoveToTargetPosition _ _ _ => Some EPOS_OPERATION_MODE_PPM
  | EvBroadcastSync => Some EPOS_OPERATION_MODE_PPM
  | _ => None
  end.

Definition mode_eqb (a b : OPERATION_MODE) : bool :=
  match a, b with
  | EPOS_OPERATION_MODE_PVM, EPOS_OPERATION_MODE_PVM => true
  | EPOS_OPERATION_MODE_PPM, EPOS_OPERATION_MODE_PPM => true
  | _, _ => false
  end.

(** Every command of [t] that requires a mode finds it set, starting from
    the mode [m]. *)
Fixpoint modes_respected (m : option OPERATION_MODE) (t : list Event) : bool :=
  match t with
  | [] => true
  | e :: t' =>
      match required_mode e with
      | None => true
      | Some r =>
          match m with
          | Some m' => mode_eqb m' r
          | None => false
          end
      end && modes_respected (mode_after m [e]) t'
  end.

(** * Properties *)

(** ** Generic facts on the 32-bit and 8-bit wrap-around *)

Lemma uint32_lor (a b : Z) : uint32 (Z.lor a b) = Z.lor (uint32 a) (uint32 b).
Proof.
  unfold uint32. rewrite <- !Z.land_ones by lia. apply Z.land_lor_distr_l.
Qed.

Lemma uint32_small (a : Z) : 0 <= a < 2 ^ 32 -> uint32 a = a.
Proof. intros H. unfold uint32. apply Z.mod_small. exact H. Qed.

Lemma uint32_idem (a : Z) : uint32 (uint32 a) = uint32 a.
Proof. unfold uint32. apply Z.mod_mod. lia. Qed.

Lemma uint8_testbit0 (a : Z) : Z.testbit (uint8 a) 0 = Z.testbit a 0.
Proof.
  unfold uint8. rewrite <- Z.land_ones by lia.
  rewrite Z.land_spec. rewrite Z.ones_spec_low by lia. apply andb_true_r.
Qed.

Lemma land1_testbit0 (a : Z) : negb (Z.land a 1 =? 0) = Z.testbit a 0.
Proof.
  change 1 with (Z.ones 1). rewrite Z.land_ones by lia.
  rewrite Z.bit0_odd. change (2 ^ 1) with 2.
  rewrite Zmod_odd. destruct (Z.odd a); reflexivity.
Qed.

(** ** PDOHelper *)

Lemma PDOHelper_unfold (G : ERROR_CODE_t) (node : EPOS4) :
  PDOHelper G node =
  (PDOHelper_calls,
   inl (if negb (PDOHelper_ret node =? 0) then G else ERROR_CODE_NOERROR)).
Proof.
  unfold PDOHelper, PDOHelper_ret, PDOHelper_calls.
  cbv [bind resetNumPDOMapped configPDO sendSDO answer wait emit ret app].
  destruct (negb _); reflexivity.
Qed.

Lemma PDOHelper_ret_zero (node : EPOS4) :
  codes_32bit node ->
  (PDOHelper_ret node = 0 <-> configPDO_succeed node).
Proof.
  intros H. unfold PDOHelper_ret, configPDO_succeed, ERROR_CODE_NOERROR.
  rewrite !uint32_lor, !uint32_idem.
  change (uint32 0) with 0. rewrite Z.lor_0_l.
  rewrite !uint32_small by apply H.
  rewrite !Z.lor_eq_0_iff. tauto.
Qed.

Lemma PDOHelper_outcome (G : ERROR_CODE_t) (node : EPOS4) :
  outcome (PDOHelper G node) =
  inl (if negb (PDOHelper_ret node =? 0) then G else ERROR_CODE_NOERROR).
Proof. rewrite PDOHelper_unfold. reflexivity. Qed.

Lemma PDOHelper_trace (G : ERROR_CODE_t) (node : EPOS4) :
  trace (PDOHelper G node) = PDOHelper_calls.
Proof. rewrite PDOHelper_unfold. reflexivity. Qed.

(** C3, as the spec has it, fails: with the three [configPDO] calls
    succeeding and the inhibit-time [sendSDO] failing, [PDOHelper] still
    returns [ERROR_CODE_NOERROR]. *)
Lemma PDOHelper_drops_inhibit_time_failure :
  configPDO_succeed motor_inhibit_fails /\
  ~ inhibit_time_write_succeeds motor_inhibit_fails /\
  In (EvSendSDO EPOS_OD_TRANSMIT_PDO_1_PARAMETER_INHIBIT_TIME_TXPDO_1 100 (Some 1))
     (trace (PDOHelper some_error motor_inhibit_fails)) /\
  outcome (PDOHelper some_error motor_inhibit_fails) = inl ERROR_CODE_NOERROR.
Proof.
  split; [repeat split |].
  split; [unfold inhibit_time_write_succeeds; cbn; discriminate |].
  split; [rewrite PDOHelper_trace; cbn; tauto |].
  rewrite PDOHelper_outcome. reflexivity.
Qed.

(** C3 (amended): [PDOHelper] returns [ERROR_CODE_NOERROR] exactly when the
    three [configPDO] calls return it, and
    [MASTER_ERROR_CODE_GENERIC_ERROR] otherwise; what [resetNumPDOMapped]
    and the inhibit-time [sendSDO] return has no part in the result. *)
Theorem PDOHelper_reports_configPDO_only
    (G : ERROR_CODE_t) (node : EPOS4) :
  G <> ERROR_CODE_NOERROR ->
  codes_32bit node ->
  (outcome (PDOHelper G node) = inl ERROR_CODE_NOERROR <-> configPDO_succeed node) /\
  (~ configPDO_succeed node -> outcome (PDOHelper G node) = inl G) /\
  (forall node' : EPOS4,
      (forall name cfg, configPDO_ret node' name cfg = configPDO_ret node name cfg) ->
      outcome (PDOHelper G node') = outcome (PDOHelper G node)).
Proof.
  intros HG H32. pose proof (PDOHelper_ret_zero node H32) as Hz.
  assert (Hsame : forall node' : EPOS4,
             (forall name cfg, configPDO_ret node' name cfg = configPDO_ret node name cfg) ->
             PDOHelper_ret node' = PDOHelper_ret node).
  { intros node' Hs. unfold PDOHelper_ret. rewrite !Hs. reflexivity. }
  rewrite PDOHelper_outcome.
  destruct (Z.eqb_spec (PDOHelper_ret node) 0) as [E | E]; cbn [negb].
  - split; [split | split].
    + intros _. apply Hz, E.
    + reflexivity.
    + intros Hn. exfalso. apply Hn, Hz, E.
    + intros node' Hs. rewrite PDOHelper_outcome, (Hsame node' Hs), E. reflexivity.
  - split; [split | split].
    + intros Heq. exfalso. apply HG. congruence.
    + intros Hs. exfalso. apply E, Hz, Hs.
    + reflexivity.
    + intros node' Hs. rewrite PDOHelper_outcome, (Hsame node' Hs).
      destruct (Z.eqb_spec (PDOHelper_ret node) 0); [contradiction | reflexivity].
Qed.

Lemma PDOHelper_reports_configPDO_only_witness :
  some_error <> ERROR_CODE_NOERROR /\
  codes_32bit motor_pdo_fails /\
  ~ configPDO_succeed motor_pdo_fails /\
  outcome (PDOHelper some_error motor_pdo_fails) = inl some_error.
Proof.
  assert (HG : some_error <> ERROR_CODE_NOERROR) by discriminate.
  assert (H32 : codes_32bit motor_pdo_fails).
  { intros name cfg. cbn. destruct (pdo_channel cfg); cbv; split; congruence. }
  assert (Hn : ~ configPDO_succeed motor_pdo_fails).
  { intros [_ [H _]]. discriminate H. }
  split; [exact HG |]. split; [exact H32 |]. split; [exact Hn |].
  destruct (PDOHelper_reports_configPDO_only some_error motor_pdo_fails HG H32)
    as [_ [H _]].
  exact (H Hn).
Defined.

(** C5: every run of [PDOHelper] starts with [resetNumPDOMapped], then
    [wait(100)], and only then come the configuration writes (the three
    [configPDO] calls and the inhibit-time write): none is made before the
    reset or between the reset and the end of the delay. *)
Theorem PDOHelper_resets_then_settles (G : ERROR_CODE_t) (node : EPOS4) :
  exists writes : list Event,
    trace (PDOHelper G node) = EvResetNumPDOMapped :: EvWait 100 :: writes /\
    Forall (fun e => is_configuration_write e = true) writes /\
    In (EvConfigPDO RxPDO_ControlWord_Synchronous configuration_RXPDO1) writes /\
    In (EvConfigPDO RxPDO_Profile_Velocity configuration_RXPDO2) writes /\
    In (EvConfigPDO TxPDO_StatusWord_Position configuration_TXPDO1) writes /\
    forall pre e post,
      trace (PDOHelper G node) = pre ++ e :: post ->
      is_configuration_write e = true ->
      exists mid, pre = EvResetNumPDOMapped :: EvWait 100 :: mid.
Proof.
  rewrite PDOHelper_trace. unfold PDOHelper_calls.
  eexists. split; [reflexivity |].
  split; [repeat constructor |].
  split; [cbn; tauto |]. split; [cbn; tauto |]. split; [cbn; tauto |].
  intros pre e post Heq Hw.
  destruct pre as [| e0 pre]; cbn in Heq.
  { injection Heq as <- _. discriminate Hw. }
  injection Heq as <- Heq.
  destruct pre as [| e1 pre]; cbn in Heq.
  { injection Heq as <- _. discriminate Hw. }
  injection Heq as <- Heq.
  exists pre. reflexivity.
Qed.

(** ** receiverTask *)

(** On every code [receiver] returns, at most one of the three tests of
    [receiverTask] holds of the parsed value, the branch taken is the one
    whose test holds, and no test holds exactly when the parsed value is
    neither 1 nor 2 and has bits 2 to 6 clear. *)
Lemma receiverTask_tests_exclusive (lib : EPOS4) (error_code : ERROR_CODE_t) :
  (length (matching_tests (parseError lib error_code)) <= 1)%nat /\
  matching_tests (parseError lib error_code) =
    match receiverTask_reaction lib error_code with
    | NoReaction => []
    | r => [r]
    end /\
  (matching_tests (parseError lib error_code) = [] <->
     parseError lib error_code <> 1 /\
     parseError lib error_code <> 2 /\
     Z.land (parseError lib error_code) 124 = 0).
Proof.
  unfold receiverTask_reaction, matching_tests.
  unfold is_master_error, is_sdo_error, is_epos_error.
  generalize (parseError lib error_code). intros p.
  destruct (Z.eqb_spec p 1) as [E1 | E1].
  { subst p. cbn. split; [lia |]. split; [reflexivity |].
    split; [discriminate | intros [H _]; lia]. }
  destruct (Z.eqb_spec p 2) as [E2 | E2].
  { subst p. cbn. split; [lia |]. split; [reflexivity |].
    split; [discriminate | intros [_ [H _]]; lia]. }
  destruct (Z.eqb_spec (Z.land p 124) 0) as [E3 | E3]; cbn.
  - split; [lia |]. split; [reflexivity |]. split; auto.
  - split; [lia |]. split; [reflexivity |].
    split; [discriminate | intros [_ [_ H]]; contradiction].
Qed.



(** ** The saved profile *)

Lemma save_profile_unfold (motor : EPOS4) :
  save_profile motor =
  ([ EvGetODpair EPOS_OD_PROFILE_VELOCITY;
     EvGetODpair EPOS_OD_PROFILE_ACCELERATION;
     EvGetODpair EPOS_OD_PROFILE_DECELERATION ],
   inl (saved_statusAll motor, oldVel motor, oldAccel motor, oldDecel motor)).
Proof. reflexivity. Qed.

Lemma saved_statusAll_bit0 (motor : EPOS4) :
  negb (Z.land (saved_statusAll motor) 1 =? 0) = all_valid motor.
Proof.
  rewrite land1_testbit0. unfold saved_statusAll, all_valid, valid_flag.
  rewrite uint8_testbit0, Z.land_spec, uint8_testbit0, Z.land_spec.
  rewrite !uint8_testbit0. reflexivity.
Qed.

Lemma return_to_old_profile_unfold (motor : EPOS4) (statusAll v a d : Z) :
  return_to_old_profile motor statusAll v a d =
  ((if negb (Z.land statusAll 1 =? 0)
    then [ EvLog LOGI "SYNC Motion" "Returning to Old Profile" [];
           EvSendRxPDO RxPDO_Profile_Velocity [v];
           EvSendSDO EPOS_OD_PROFILE_ACCELERATION a (Some 1);
           EvSendSDO EPOS_OD_PROFILE_DECELERATION d (Some 1) ]
    else [ EvLog LOGW "SYNC Motion" "Old Profile invalid" [] ]),
   inl tt).
Proof.
  unfold return_to_old_profile. destruct (negb _); reflexivity.
Qed.

(** ** Sequencing *)

Lemma bind_answer {A B : Type} (e : Event) (a : A) (k : A -> M B) :
  bind (answer e a) k = prepend [e] (k a).
Proof. unfold bind, answer, prepend. destruct (k a). reflexivity. Qed.

Lemma bind_emit {B : Type} (e : Event) (k : unit -> M B) :
  bind (emit e) k = prepend [e] (k tt).
Proof. unfold bind, emit, prepend. destruct (k tt). reflexivity. Qed.

Lemma bind_value {A B : Type} (t : list Event) (a : A) (k : A -> M B) :
  bind (t, inl a) k = prepend t (k a).
Proof. unfold bind, prepend. destruct (k a). reflexivity. Qed.

Lemma bind_spin {A B : Type} (t : list Event) (s : Spin) (k : A -> M B) :
  bind (t, inr s) k = (t, inr s).
Proof. reflexivity. Qed.

Lemma prepend_prepend {A : Type} (t t' : list Event) (c : M A) :
  prepend t (prepend t' c) = prepend (t ++ t') c.
Proof. unfold prepend. cbn. rewrite app_assoc. reflexivity. Qed.

Lemma prepend_pair {A : Type} (t t' : list Event) (r : A + Spin) :
  prepend t (t', r) = (t ++ t', r).
Proof. reflexivity. Qed.

Lemma bind_prepend {A B : Type} (t : list Event) (c : M A) (k : A -> M B) :
  bind (prepend t c) k = prepend t (bind c k).
Proof.
  destruct c as [t' [a | s]]; unfold prepend; cbn.
  - destruct (k a). cbn. rewrite app_assoc. reflexivity.
  - reflexivity.
Qed.

(** Moves the calls of a straight-line prefix in front of what follows. *)
Ltac step_calls :=
  repeat first
    [ rewrite bind_emit | rewrite bind_answer | rewrite bind_value
    | rewrite bind_prepend | rewrite prepend_prepend ].

(** ** The loops *)

Lemma demo_loop_unfold (fuel : nat) :
  demo_loop fuel = (demo_rounds fuel, inr InDemoLoop).
Proof.
  induction fuel as [| fuel IH]; [reflexivity |].
  cbn [demo_loop]. unfold wait, ESP_LOGI, moveToTargetPosition.
  rewrite !bind_emit, IH. reflexivity.
Qed.

Lemma setup_failed_loop_unfold (fuel : nat) :
  setup_failed_loop fuel = (repeat (EvWait 1000) fuel, inr InSetupFailedLoop).
Proof.
  induction fuel as [| fuel IH]; [reflexivity |].
  cbn [setup_failed_loop]. unfold wait. rewrite bind_emit, IH. reflexivity.
Qed.

Lemma target_reached_loop_step (motor : EPOS4) (fuel round : nat) :
  target_reached_loop motor (S fuel) round =
  if target_reached_at motor round
  then ([EvGetBitFromStatusWord SW_BITS_TARGET_REACHED], inl tt)
  else prepend (poll_round motor round) (target_reached_loop motor fuel (S round)).
Proof.
  cbn [target_reached_loop]. unfold getBitFromStatusWord, target_reached_at.
  rewrite bind_answer.
  destruct (getBitFromStatusWord_ret motor round SW_BITS_TARGET_REACHED =? 1); cbn [negb].
  - reflexivity.
  - unfold wait. rewrite !bind_emit, !prepend_prepend. reflexivity.
Qed.

(** While no answer lets the loop end, it is still running when the bound
    is reached. *)
Lemma target_reached_loop_spins (motor : EPOS4) (fuel : nat) :
  forall round : nat,
    (forall i : nat, (round <= i < round + fuel)%nat -> target_reached_at motor i = false) ->
    target_reached_loop motor fuel round =
    (poll_rounds motor round fuel, inr InTargetReachedLoop).
Proof.
  induction fuel as [| fuel IH]; intros round H; [reflexivity |].
  rewrite target_reached_loop_step, H by lia.
  rewrite IH by (intros i Hi; apply H; lia). reflexivity.
Qed.

(** The loop ends at the first answer equal to 1, given a bound beyond
    it. *)
Lemma target_reached_loop_exits (motor : EPOS4) (k : nat) :
  forall fuel round : nat,
    (forall i : nat, (round <= i < round + k)%nat -> target_reached_at motor i = false) ->
    target_reached_at motor (round + k) = true ->
    (k < fuel)%nat ->
    target_reached_loop motor fuel round =
    (poll_rounds motor round k ++ [EvGetBitFromStatusWord SW_BITS_TARGET_REACHED], inl tt).
Proof.
  induction k as [| k IH]; intros fuel round Hno Hyes Hfuel;
    destruct fuel as [| fuel]; try lia.
  - rewrite target_reached_loop_step. rewrite Nat.add_0_r in Hyes.
    rewrite Hyes. reflexivity.
  - rewrite target_reached_loop_step, Hno by lia.
    rewrite (IH fuel (S round)).
    + unfold poll_rounds. cbn [seq flat_map]. rewrite prepend_pair, app_assoc. reflexivity.
    + intros i Hi. apply Hno. lia.
    + replace (S round + k)%nat with (round + S k)%nat by lia. exact Hyes.
    + lia.
Qed.

(** ** app_main as one trace *)

(** What follows the poll loop: lines 284-308. *)
Lemma after_poll_unfold (motor : EPOS4) (fuel : nat) :
  (ESP_LOGI "SYNC Motion" "Motion Complete!" ;;
   return_to_old_profile motor (saved_statusAll motor)
     (oldVel motor) (oldAccel motor) (oldDecel motor) ;;
   demo_loop fuel) =
  (restore_calls motor ++ demo_rounds fuel, inr InDemoLoop).
Proof.
  unfold ESP_LOGI. rewrite bind_emit, return_to_old_profile_unfold, bind_value.
  rewrite demo_loop_unfold, saved_statusAll_bit0. unfold restore_calls.
  destruct (all_valid motor); reflexivity.
Qed.

Lemma motion_demo_unfold (motor : EPOS4) (fuel : nat) :
  motion_demo motor fuel =
  prepend
    (skipn 2 profile_mode_calls ++ save_profile_calls ++ configure_sync_calls motor ++
     EvBroadcastSync :: after_sync_calls motor)
    (target_reached_loop motor fuel 0%nat ;;
     (restore_calls motor ++ demo_rounds fuel, inr InDemoLoop)).
Proof.
  unfold motion_demo. rewrite save_profile_unfold, <- after_poll_unfold.
  unfold configure_sync_motion, start_sync_motion, sendRxPDO, sendSDO,
    setControlWordBits, moveToTargetPosition, wait, ESP_LOGI, ret.
  step_calls.
  reflexivity.
Qed.

Lemma PDOHelper_ok_unfold (G : ERROR_CODE_t) (motor : EPOS4) :
  PDOHelper_ok G motor =
  ((if negb (PDOHelper_ret motor =? 0) then G else ERROR_CODE_NOERROR)
     =? ERROR_CODE_NOERROR).
Proof. unfold PDOHelper_ok. rewrite PDOHelper_outcome. reflexivity. Qed.

(** A failed setup: the calls made until the failed step, the error log
    and the waits of the last loop. *)
Lemma app_main_setup_failed (G : ERROR_CODE_t) (motor : EPOS4) (fuel : nat) :
  setup_ok G motor = false ->
  app_main G motor fuel =
  (failed_setup_calls G motor ++ setup_failed_calls fuel, inr InSetupFailedLoop).
Proof.
  unfold setup_ok, failed_setup_calls, app_main. intros Hfail.
  unfold changeNMTState. step_calls.
  fold (pre_operational_ok motor).
  destruct (pre_operational_ok motor); cbn [negb andb] in *.
  2:{ unfold ret, ESP_LOGE. step_calls.
      rewrite setup_failed_loop_unfold. reflexivity. }
  rewrite PDOHelper_unfold. unfold ESP_LOGI, wait. step_calls.
  rewrite <- PDOHelper_ok_unfold.
  destruct (PDOHelper_ok G motor); cbn [negb andb] in *.
  2:{ unfold ret, ESP_LOGE. step_calls.
      rewrite setup_failed_loop_unfold. reflexivity. }
  step_calls. fold (operational_ok motor). rewrite Hfail.
  unfold ret, ESP_LOGE. step_calls.
  rewrite setup_failed_loop_unfold. reflexivity.
Qed.

(** A successful setup: the calls up to the poll loop, then the loop and
    what follows it. *)
Lemma app_main_setup_ok (G : ERROR_CODE_t) (motor : EPOS4) (fuel : nat) :
  setup_ok G motor = true ->
  app_main G motor fuel =
  prepend (motion_calls motor)
    (target_reached_loop motor fuel 0%nat ;;
     (restore_calls motor ++ demo_rounds fuel, inr InDemoLoop)).
Proof.
  unfold setup_ok, app_main. intros Hok.
  apply andb_prop in Hok as [Hok H3]. apply andb_prop in Hok as [H1 H2].
  unfold changeNMTState. step_calls.
  fold (pre_operational_ok motor). rewrite H1.
  rewrite PDOHelper_unfold. unfold ESP_LOGI, wait. step_calls.
  rewrite <- PDOHelper_ok_unfold, H2.
  step_calls. fold (operational_ok motor). rewrite H3.
  step_calls. rewrite motion_demo_unfold. step_calls.
  destruct (target_reached_loop motor fuel 0) as [t [[] | s]]; reflexivity.
Qed.

(** ** A larger bound only extends a run *)

Lemma repeat_S_end {A : Type} (x : A) (n : nat) : repeat x (S n) = repeat x n ++ [x].
Proof. cbn [repeat]. apply repeat_cons. Qed.

Lemma demo_rounds_S (n : nat) : demo_rounds (S n) = demo_rounds n ++ demo_round.
Proof.
  unfold demo_rounds. rewrite repeat_S_end, concat_app. cbn [concat].
  rewrite app_nil_r. reflexivity.
Qed.

(** Once the poll loop has ended within the bound, a larger bound changes
    nothing; in any case the calls made within the bound are kept. *)
Lemma target_reached_loop_extends (motor : EPOS4) (fuel : nat) :
  forall round : nat,
    (outcome (target_reached_loop motor fuel round) = inl tt ->
     target_reached_loop motor (S fuel) round = target_reached_loop motor fuel round) /\
    exists more : list Event,
      trace (target_reached_loop motor (S fuel) round) =
      trace (target_reached_loop motor fuel round) ++ more.
Proof.
  induction fuel as [| fuel IH]; intros round.
  - split; [discriminate |]. eexists. reflexivity.
  - destruct (IH (S round)) as [Hsame [more Hmore]].
    rewrite (target_reached_loop_step motor (S fuel)), (target_reached_loop_step motor fuel).
    destruct (target_reached_at motor round).
    + split; [reflexivity |]. exists []. reflexivity.
    + split.
      * intros Hout. rewrite Hsame; [reflexivity | exact Hout].
      * exists more. unfold prepend, trace in *. cbn [fst].
        rewrite Hmore, app_assoc. reflexivity.
Qed.

(** The trace of [app_main] under a bound is a prefix of its trace under
    the next bound: the bound cuts runs short, it does not change them. *)
Lemma app_main_extends (G : ERROR_CODE_t) (motor : EPOS4) (fuel : nat) :
  exists more : list Event,
    trace (app_main G motor (S fuel)) = trace (app_main G motor fuel) ++ more.
Proof.
  destruct (setup_ok G motor) eqn:Hok.
  - rewrite !(app_main_setup_ok G motor _ Hok).
    destruct (target_reached_loop_extends motor fuel 0) as [Hsame [more Hmore]].
    destruct (target_reached_loop motor fuel 0) as [t [[] | s]] eqn:Hloop.
    + rewrite (Hsame eq_refl), !bind_value, !prepend_pair.
      unfold trace. cbn [fst]. rewrite demo_rounds_S.
      exists demo_round. rewrite <- !app_assoc. reflexivity.
    + unfold trace in Hmore. cbn [fst] in Hmore.
      destruct (target_reached_loop motor (S fuel) 0) as [t' [[] | s']];
        cbn [fst] in Hmore; subst t'.
      * rewrite bind_value, bind_spin, !prepend_pair. unfold trace. cbn [fst].
        eexists. rewrite <- !app_assoc. reflexivity.
      * rewrite !bind_spin, !prepend_pair. unfold trace. cbn [fst].
        exists more. rewrite app_assoc. reflexivity.
  - rewrite !(app_main_setup_failed G motor _ Hok). exists [EvWait 1000].
    unfold setup_failed_calls, trace. cbn [fst].
    rewrite repeat_S_end, <- app_assoc. reflexivity.
Qed.

(** ** Concrete runs *)

Example run_ok_reaches_demo_loop :
  outcome (app_main some_error motor_ok 3) = inr InDemoLoop.
Proof. reflexivity. Qed.

Example run_ok_cut_in_poll_loop :
  outcome (app_main some_error motor_ok 2) = inr InTargetReachedLoop.
Proof. reflexivity. Qed.

Example run_ok_restores_profile :
  filter is_write (skipn (length (motion_calls motor_ok))
                     (trace (app_main some_error motor_ok 3))) =
  [ EvSendRxPDO "PV" [3000];
    EvSendSDO EPOS_OD_PROFILE_ACCELERATION 10000 (Some 1);
    EvSendSDO EPOS_OD_PROFILE_DECELERATION 10000 (Some 1) ].
Proof. reflexivity. Qed.

Example run_stale_keeps_new_profile :
  all_valid motor_stale_profile = false /\
  filter is_write (skipn (length (motion_calls motor_stale_profile))
                     (trace (app_main some_error motor_stale_profile 3))) = [].
Proof. split; reflexivity. Qed.

Example run_pdo_failure :
  trace (app_main some_error motor_pdo_fails 2) =
  startup_calls ++ pdo_setup_calls ++
  [ EvLog LOGE "DEMO" "Setup Failed!" []; EvWait 1000; EvWait 1000 ].
Proof. reflexivity. Qed.

(** ** Failed setup *)

Lemma setup_ok_false_iff (G : ERROR_CODE_t) (motor : EPOS4) :
  setup_ok G motor = false <->
  changeNMTState_ret motor NMT_COMMAND_GOTO_PRE_OPERATIONAL <> ERROR_CODE_NOERROR \/
  outcome (PDOHelper G motor) <> inl ERROR_CODE_NOERROR \/
  changeNMTState_ret motor NMT_COMMAND_GOTO_OPERATIONAL <> ERROR_CODE_NOERROR.
Proof.
  unfold setup_ok, pre_operational_ok, operational_ok, PDOHelper_ok.
  rewrite PDOHelper_outcome.
  rewrite !andb_false_iff, !Z.eqb_neq.
  split.
  - intros [[H | H] | H]; [left; exact H | right; left | right; right; exact H].
    intros E. apply H. congruence.
  - intros [H | [H | H]]; [left; left; exact H | left; right | right; exact H].
    intros E. apply H. congruence.
Qed.

Lemma no_motion_in_failed_setup (G : ERROR_CODE_t) (motor : EPOS4) :
  forallb (fun e => negb (is_motion_command e)) (failed_setup_calls G motor) = true.
Proof.
  unfold failed_setup_calls.
  destruct (negb (pre_operational_ok motor)); [reflexivity |].
  destruct (negb (PDOHelper_ok G motor)); reflexivity.
Qed.

Lemma no_motion_in_setup_failed_calls (fuel : nat) :
  forallb (fun e => negb (is_motion_command e)) (setup_failed_calls fuel) = true.
Proof.
  unfold setup_failed_calls. cbn [forallb is_motion_command negb andb].
  induction fuel as [| fuel IH]; [reflexivity | exact IH].
Qed.

Lemma failed_run_without_motion (G : ERROR_CODE_t) (motor : EPOS4) (fuel : nat) :
  setup_ok G motor = false ->
  forall e : Event,
    In e (trace (app_main G motor fuel)) -> is_motion_command e = false.
Proof.
  intros Hfail e He. rewrite (app_main_setup_failed G motor fuel Hfail) in He.
  cbn [trace fst] in He.
  assert (Hb : forallb (fun e => negb (is_motion_command e))
                 (failed_setup_calls G motor ++ setup_failed_calls fuel) = true).
  { rewrite forallb_app, no_motion_in_failed_setup, no_motion_in_setup_failed_calls.
    reflexivity. }
  rewrite forallb_forall in Hb. specialize (Hb e He).
  destruct (is_motion_command e); [discriminate | reflexivity].
Qed.

(** C1: when a step of the setup fails (one of the two [changeNMTState]
    calls or [PDOHelper] does not return [ERROR_CODE_NOERROR]), no run of
    [app_main], however long, calls [enable], [moveToTargetVelocity],
    [moveToTargetPosition], [sendRxPDO] or [broadcastSync]; the run logs
    the failure and stays in the last loop, which only waits. *)
Theorem no_motion_after_failed_setup (G : ERROR_CODE_t) (motor : EPOS4) :
  changeNMTState_ret motor NMT_COMMAND_GOTO_PRE_OPERATIONAL <> ERROR_CODE_NOERROR \/
  outcome (PDOHelper G motor) <> inl ERROR_CODE_NOERROR \/
  changeNMTState_ret motor NMT_COMMAND_GOTO_OPERATIONAL <> ERROR_CODE_NOERROR ->
  forall fuel : nat,
    Forall (fun e => is_motion_command e = false) (trace (app_main G motor fuel)) /\
    outcome (app_main G motor fuel) = inr InSetupFailedLoop /\
    exists before : list Event,
      trace (app_main G motor fuel) =
      before ++ EvLog LOGE "DEMO" "Setup Failed!" [] :: repeat (EvWait 1000) fuel.
Proof.
  intros Hfail fuel. apply setup_ok_false_iff in Hfail.
  split.
  - apply Forall_forall. exact (failed_run_without_motion G motor fuel Hfail).
  - rewrite (app_main_setup_failed G motor fuel Hfail).
    split; [reflexivity | exists (failed_setup_calls G motor); reflexivity].
Qed.

Lemma no_motion_after_failed_setup_witness :
  outcome (PDOHelper some_error motor_pdo_fails) <> inl ERROR_CODE_NOERROR /\
  Forall (fun e => is_motion_command e = false)
    (trace (app_main some_error motor_pdo_fails 3)) /\
  outcome (app_main some_error motor_pdo_fails 3) = inr InSetupFailedLoop.
Proof.
  assert (H : outcome (PDOHelper some_error motor_pdo_fails) <> inl ERROR_CODE_NOERROR).
  { vm_compute. discriminate. }
  split; [exact H |].
  destruct (no_motion_after_failed_setup some_error motor_pdo_fails
              (or_intror (or_introl H)) 3) as [H1 [H2 _]].
  split; [exact H1 | exact H2].
Defined.

(** ** Successful setup: the poll loop and the demo loop *)

Lemma app_main_polling (G : ERROR_CODE_t) (motor : EPOS4) (fuel : nat) :
  setup_ok G motor = true ->
  (forall i : nat, (i < fuel)%nat -> target_reached_at motor i = false) ->
  app_main G motor fuel =
  (motion_calls motor ++ poll_rounds motor 0 fuel, inr InTargetReachedLoop).
Proof.
  intros Hok Hno. rewrite (app_main_setup_ok G motor fuel Hok).
  rewrite target_reached_loop_spins by (intros i Hi; apply Hno; lia).
  reflexivity.
Qed.

Lemma app_main_demo (G : ERROR_CODE_t) (motor : EPOS4) (fuel k : nat) :
  setup_ok G motor = true ->
  (forall i : nat, (i < k)%nat -> target_reached_at motor i = false) ->
  target_reached_at motor k = true ->
  (k < fuel)%nat ->
  app_main G motor fuel =
  (motion_calls motor ++
   (poll_rounds motor 0 k ++ [EvGetBitFromStatusWord SW_BITS_TARGET_REACHED]) ++
   restore_calls motor ++ demo_rounds fuel,
   inr InDemoLoop).
Proof.
  intros Hok Hno Hyes Hfuel. rewrite (app_main_setup_ok G motor fuel Hok).
  rewrite (target_reached_loop_exits motor k fuel 0%nat)
    by (try (intros i Hi; apply Hno); auto; lia).
  rewrite bind_value. reflexivity.
Qed.

Lemma polls_in_poll_rounds (motor : EPOS4) (n : nat) :
  forall round : nat, length (filter is_poll (poll_rounds motor round n)) = n.
Proof.
  unfold poll_rounds.
  induction n as [| n IH]; intros round; [reflexivity |].
  cbn [seq flat_map]. rewrite filter_app, length_app, IH. reflexivity.
Qed.

Lemma polls_in_motion_calls (motor : EPOS4) :
  filter is_poll (motion_calls motor) = [].
Proof. reflexivity. Qed.

Lemma in_poll_rounds (motor : EPOS4) (e : Event) (round n : nat) :
  In e (poll_rounds motor round n) -> exists i : nat, In e (poll_round motor i).
Proof.
  unfold poll_rounds. rewrite in_flat_map. intros [i [_ H]]. exists i. exact H.
Qed.

Lemma in_demo_rounds (e : Event) (n : nat) :
  In e (demo_rounds n) -> In e demo_round.
Proof.
  unfold demo_rounds. rewrite in_concat. intros [l [Hl He]].
  apply repeat_spec in Hl. subst l. exact He.
Qed.

Lemma motion_complete_not_before_exit (motor : EPOS4) (n : nat) :
  ~ In (EvLog LOGI "SYNC Motion" "Motion Complete!" [])
       (motion_calls motor ++ poll_rounds motor 0 n).
Proof.
  intros H. apply in_app_or in H as [H | H].
  - cbn in H. repeat (destruct H as [H | H]; [discriminate H |]). exact H.
  - apply in_poll_rounds in H as [i H].
    cbn in H. repeat (destruct H as [H | H]; [discriminate H |]). exact H.
Qed.

(** C7: the loop that waits for the target-reached bit has no bound of
    its own.  While no poll reads 1, whatever number of rounds is allowed,
    the loop makes them all (one poll each) and is still running;
    [app_main] never logs the end of the motion nor goes on to what
    follows the loop. *)
Theorem target_reached_poll_unbounded (G : ERROR_CODE_t) (motor : EPOS4) :
  setup_ok G motor = true ->
  (forall i : nat, target_reached_at motor i = false) ->
  forall fuel : nat,
    outcome (app_main G motor fuel) = inr InTargetReachedLoop /\
    trace (app_main G motor fuel) = motion_calls motor ++ poll_rounds motor 0 fuel /\
    length (filter is_poll (trace (app_main G motor fuel))) = fuel /\
    ~ In (EvLog LOGI "SYNC Motion" "Motion Complete!" []) (trace (app_main G motor fuel)).
Proof.
  intros Hok Hno fuel.
  rewrite (app_main_polling G motor fuel Hok) by (intros i _; apply Hno).
  cbn [trace outcome fst snd].
  split; [reflexivity |]. split; [reflexivity |]. split.
  - rewrite filter_app, length_app, polls_in_motion_calls, polls_in_poll_rounds.
    reflexivity.
  - apply motion_complete_not_before_exit.
Qed.

Lemma target_reached_poll_unbounded_witness :
  setup_ok some_error motor_never_reached = true /\
  outcome (app_main some_error motor_never_reached 7) = inr InTargetReachedLoop /\
  length (filter is_poll (trace (app_main some_error motor_never_reached 7))) = 7%nat.
Proof.
  assert (Hok : setup_ok some_error motor_never_reached = true) by reflexivity.
  split; [exact Hok |].
  destruct (target_reached_poll_unbounded some_error motor_never_reached Hok
              (fun _ => eq_refl) 7) as [H1 [_ [H3 _]]].
  split; [exact H1 | exact H3].
Defined.

(** ** The saved profile, in app_main *)

(** C6: the profile read through the cache is written back if and only if
    each of the three reads came with its validity flag (bit 0 of the
    status, which the conjunction [statusAll] keeps) set; when one flag is
    clear none of the three old values is written. *)
Theorem old_profile_restored_iff_all_valid (motor : EPOS4) :
  outcome (save_profile motor) =
    inl (saved_statusAll motor, oldVel motor, oldAccel motor, oldDecel motor) /\
  Z.testbit (saved_statusAll motor) 0 = all_valid motor /\
  trace (return_to_old_profile motor (saved_statusAll motor)
           (oldVel motor) (oldAccel motor) (oldDecel motor)) =
    (if all_valid motor
     then EvLog LOGI "SYNC Motion" "Returning to Old Profile" [] :: old_profile_writes motor
     else [ EvLog LOGW "SYNC Motion" "Old Profile invalid" [] ]) /\
  (filter is_write
     (trace (return_to_old_profile motor (saved_statusAll motor)
               (oldVel motor) (oldAccel motor) (oldDecel motor))) =
   if all_valid motor then old_profile_writes motor else []) /\
  (forall (G : ERROR_CODE_t) (fuel k : nat),
      setup_ok G motor = true ->
      (forall i : nat, (i < k)%nat -> target_reached_at motor i = false) ->
      target_reached_at motor k = true ->
      (k < fuel)%nat ->
      trace (app_main G motor fuel) =
      motion_calls motor ++
      (poll_rounds motor 0 k ++ [EvGetBitFromStatusWord SW_BITS_TARGET_REACHED]) ++
      (EvLog LOGI "SYNC Motion" "Motion Complete!" [] ::
       trace (return_to_old_profile motor (saved_statusAll motor)
                (oldVel motor) (oldAccel motor) (oldDecel motor))) ++
      demo_rounds fuel).
Proof.
  split; [reflexivity |].
  split; [rewrite <- saved_statusAll_bit0; apply eq_sym, land1_testbit0 |].
  rewrite return_to_old_profile_unfold, saved_statusAll_bit0.
  cbn [trace fst].
  split; [destruct (all_valid motor); reflexivity |].
  split; [destruct (all_valid motor); reflexivity |].
  intros G fuel k Hok Hno Hyes Hk.
  rewrite (app_main_demo G motor fuel k Hok Hno Hyes Hk). reflexivity.
Qed.

(** ** app_main does not return *)

(** C9, as the spec has it, fails: the setup succeeds and the run never
    gets to the demo loop, because no poll reads the target reached. *)
Lemma setup_ok_without_demo_loop :
  setup_ok some_error motor_never_reached = true /\
  forall fuel : nat,
    outcome (app_main some_error motor_never_reached fuel) = inr InTargetReachedLoop /\
    outcome (app_main some_error motor_never_reached fuel) <> inr InDemoLoop.
Proof.
  split; [reflexivity |]. intros fuel.
  rewrite (app_main_polling some_error motor_never_reached fuel) by reflexivity.
  split; [reflexivity | discriminate].
Qed.

Lemma target_reached_loop_outcome (motor : EPOS4) (fuel : nat) :
  forall round : nat,
    outcome (target_reached_loop motor fuel round) = inl tt \/
    outcome (target_reached_loop motor fuel round) = inr InTargetReachedLoop.
Proof.
  induction fuel as [| fuel IH]; intros round; [right; reflexivity |].
  rewrite target_reached_loop_step.
  destruct (target_reached_at motor round); [left; reflexivity |].
  exact (IH (S round)).
Qed.

(** C9 (amended): [app_main] never returns.  When a step of the setup
    fails, control ends in the wait loop that follows the failure log.
    When the setup succeeds, control ends in the demo loop once a poll of
    the target-reached bit has read 1, and stays in the poll loop as long
    as none has. *)
Theorem app_main_never_returns (G : ERROR_CODE_t) (motor : EPOS4) (fuel : nat) :
  (exists s : Spin, outcome (app_main G motor fuel) = inr s) /\
  (setup_ok G motor = false ->
   outcome (app_main G motor fuel) = inr InSetupFailedLoop) /\
  (setup_ok G motor = true ->
   forall k : nat,
     (forall i : nat, (i < k)%nat -> target_reached_at motor i = false) ->
     target_reached_at motor k = true ->
     (k < fuel)%nat ->
     outcome (app_main G motor fuel) = inr InDemoLoop) /\
  (setup_ok G motor = true ->
   (forall i : nat, (i < fuel)%nat -> target_reached_at motor i = false) ->
   outcome (app_main G motor fuel) = inr InTargetReachedLoop).
Proof.
  split; [| split; [| split]].
  - destruct (setup_ok G motor) eqn:Hok.
    + rewrite (app_main_setup_ok G motor fuel Hok).
      destruct (target_reached_loop_outcome motor fuel 0) as [H | H];
        destruct (target_reached_loop motor fuel 0) as [t [[] | s]];
        cbn in H |- *; try discriminate.
      * exists InDemoLoop. reflexivity.
      * exists s. reflexivity.
    + rewrite (app_main_setup_failed G motor fuel Hok).
      exists InSetupFailedLoop. reflexivity.
  - intros Hfail. rewrite (app_main_setup_failed G motor fuel Hfail). reflexivity.
  - intros Hok k Hno Hyes Hk.
    rewrite (app_main_demo G motor fuel k Hok Hno Hyes Hk). reflexivity.
  - intros Hok Hno. rewrite (app_main_polling G motor fuel Hok Hno). reflexivity.
Qed.

(** ** The SYNC motion *)

Lemma motion_calls_split (motor : EPOS4) :
  motion_calls motor =
  before_sync_calls motor ++ EvBroadcastSync :: after_sync_calls motor.
Proof. reflexivity. Qed.

Lemma target_reached_loop_events (motor : EPOS4) (fuel : nat) :
  forall (round : nat) (e : Event),
    In e (trace (target_reached_loop motor fuel round)) ->
    exists i : nat, In e (poll_round motor i).
Proof.
  induction fuel as [| fuel IH]; intros round e H; [contradiction |].
  rewrite target_reached_loop_step in H.
  destruct (target_reached_at motor round).
  - exists round. cbn in H |- *. tauto.
  - unfold prepend, trace in H. cbn [fst] in H.
    apply in_app_or in H as [H | H]; [exists round; exact H |].
    exact (IH (S round) e H).
Qed.

Lemma app_main_tail (G : ERROR_CODE_t) (motor : EPOS4) (fuel : nat) :
  setup_ok G motor = true ->
  exists tail : list Event,
    trace (app_main G motor fuel) = motion_calls motor ++ tail /\
    forall e : Event, In e tail -> loop_event motor e.
Proof.
  intros Hok. rewrite (app_main_setup_ok G motor fuel Hok).
  pose proof (target_reached_loop_events motor fuel 0) as Hloop.
  destruct (target_reached_loop motor fuel 0) as [t [[] | s]]; cbn in Hloop.
  - exists (t ++ restore_calls motor ++ demo_rounds fuel).
    split; [reflexivity |]. intros e He.
    apply in_app_or in He as [He | He]; [left; exact (Hloop e He) |].
    apply in_app_or in He as [He | He]; [right; left; exact He |].
    right; right. exact (in_demo_rounds e fuel He).
  - exists t. split; [reflexivity |]. intros e He. left. exact (Hloop e He).
Qed.

(** A list with a single occurrence of [x] splits around it in one way. *)
Lemma split_at_unique (x : Event) (a b : list Event) :
  ~ In x a ->
  ~ In x b ->
  forall a' b' : list Event,
    a' ++ x :: b' = a ++ x :: b ->
    a' = a /\ b' = b.
Proof.
  intros Ha Hb. induction a as [| e a IH]; intros a' b' Heq.
  - destruct a' as [| e' a']; cbn in Heq.
    + injection Heq as ->. split; reflexivity.
    + injection Heq as -> Heq. exfalso. apply Hb. rewrite <- Heq.
      apply in_elt.
  - destruct a' as [| e' a']; cbn in Heq.
    + injection Heq as <- _. exfalso. apply Ha. left. reflexivity.
    + injection Heq as -> Heq.
      destruct (IH (fun H => Ha (or_intror H)) a' b' Heq) as [-> ->].
      split; reflexivity.
Qed.

Ltac in_concrete H :=
  cbn in H; repeat (destruct H as [H | H]; [try discriminate H |]); try contradiction.

Lemma loop_event_not_sync (motor : EPOS4) (e : Event) :
  loop_event motor e ->
  e <> EvBroadcastSync /\
  (forall values, e <> EvSendRxPDO RxPDO_ControlWord_Synchronous values).
Proof.
  intros [[i H] | [H | H]].
  - split; [| intros values]; intros ->; in_concrete H.
  - unfold restore_calls, old_profile_writes in H.
    split; [| intros values]; intros ->; destruct (all_valid motor); in_concrete H.
  - split; [| intros values]; intros ->; in_concrete H.
Qed.

Lemma no_sync_before (motor : EPOS4) : ~ In EvBroadcastSync (before_sync_calls motor).
Proof. intros H. in_concrete H. Qed.

Lemma no_sync_after (motor : EPOS4) (tail : list Event) :
  (forall e : Event, In e tail -> loop_event motor e) ->
  ~ In EvBroadcastSync (after_sync_calls motor ++ tail).
Proof.
  intros Htail H. apply in_app_or in H as [H | H]; [in_concrete H |].
  apply Htail, loop_event_not_sync in H as [H _]. apply H. reflexivity.
Qed.

Lemma failed_run_has_no_sync (G : ERROR_CODE_t) (motor : EPOS4) (fuel : nat) :
  setup_ok G motor = false -> ~ In EvBroadcastSync (trace (app_main G motor fuel)).
Proof.
  intros Hfail H.
  pose proof (failed_run_without_motion G motor fuel Hfail _ H) as Hm.
  discriminate Hm.
Qed.

(** C4: wherever a run of [app_main] calls [broadcastSync], the write of
    the control word on the synchronous RxPDO has been made before it and
    no write on that channel follows it; [broadcastSync] is called once,
    and the message that the motion has started is logged right after it
    has returned, never before. *)
Theorem sync_write_precedes_broadcastSync
    (G : ERROR_CODE_t) (motor : EPOS4) (fuel : nat) (pre post : list Event) :
  trace (app_main G motor fuel) = pre ++ EvBroadcastSync :: post ->
  In (EvSendRxPDO RxPDO_ControlWord_Synchronous [sync_control_word motor]) pre /\
  (forall values, ~ In (EvSendRxPDO RxPDO_ControlWord_Synchronous values) post) /\
  ~ In EvBroadcastSync pre /\
  ~ In EvBroadcastSync post /\
  ~ In (EvLog LOGI "SYNC Motion" "Sent Sync, Motion Started" []) pre /\
  exists rest : list Event,
    post = EvLog LOGI "SYNC Motion" "Sent Sync, Motion Started" [] :: rest.
Proof.
  intros Hsplit.
  destruct (setup_ok G motor) eqn:Hok.
  2:{ exfalso. apply (failed_run_has_no_sync G motor fuel Hok).
      rewrite Hsplit. apply in_elt. }
  destruct (app_main_tail G motor fuel Hok) as [tail [Htrace Htail]].
  rewrite Htrace, motion_calls_split, <- app_assoc in Hsplit.
  cbn [app] in Hsplit. symmetry in Hsplit.
  apply (split_at_unique EvBroadcastSync (before_sync_calls motor)
           (after_sync_calls motor ++ tail)
           (no_sync_before motor) (no_sync_after motor tail Htail)) in Hsplit.
  destruct Hsplit as [-> ->].
  split; [cbn; tauto |].
  split.
  { intros values H. apply in_app_or in H as [H | H]; [in_concrete H |].
    apply Htail, loop_event_not_sync in H as [_ H]. apply (H values). reflexivity. }
  split; [apply no_sync_before |].
  split; [apply (no_sync_after motor tail Htail) |].
  split; [intros H; in_concrete H |].
  eexists. reflexivity.
Qed.

Lemma sync_write_precedes_broadcastSync_witness :
  trace (app_main some_error motor_ok 4) =
    firstn calls_before_sync (trace (app_main some_error motor_ok 4)) ++
    EvBroadcastSync ::
    skipn (S calls_before_sync) (trace (app_main some_error motor_ok 4)) /\
  In (EvSendRxPDO RxPDO_ControlWord_Synchronous [63])
    (firstn calls_before_sync (trace (app_main some_error motor_ok 4))) /\
  ~ In EvBroadcastSync
    (skipn (S calls_before_sync) (trace (app_main some_error motor_ok 4))).
Proof.
  assert (H : trace (app_main some_error motor_ok 4) =
              firstn calls_before_sync (trace (app_main some_error motor_ok 4)) ++
              EvBroadcastSync ::
              skipn (S calls_before_sync) (trace (app_main some_error motor_ok 4))).
  { vm_compute. reflexivity. }
  split; [exact H |].
  destruct (sync_write_precedes_broadcastSync some_error motor_ok 4 _ _ H)
    as [H1 [_ [_ [H4 _]]]].
  split; [exact H1 | exact H4].
Defined.

(** ** heartbeatTask *)

Lemma uint32_add_l (a b : Z) : uint32 (uint32 a + b) = uint32 (a + b).
Proof. unfold uint32. apply Zplus_mod_idemp_l. Qed.

Lemma heartbeat_loop_unfold (rate : Z) (lib : EPOS4) (t0 : Z) (fuel : nat) :
  forall (round : nat) (last : Z),
    uint32 last = uint32 (t0 + Z.of_nat round * rate) ->
    heartbeat_loop rate lib fuel round last =
    (heartbeat_rounds lib rate t0 round fuel, inr InHeartbeatLoop).
Proof.
  induction fuel as [| fuel IH]; intros round last Hlast; [reflexivity |].
  cbn [heartbeat_loop]. unfold sendHeartbeat, xTaskDelayUntil, sendFrequency.
  assert (Hwake : uint32 (last + rate) = uint32 (t0 + Z.of_nat (S round) * rate)).
  { rewrite <- uint32_add_l, Hlast, uint32_add_l. f_equal. lia. }
  rewrite bind_answer.
  assert (Hnext : heartbeat_loop rate lib fuel (S round) (uint32 (last + rate)) =
                  (heartbeat_rounds lib rate t0 (S round) fuel, inr InHeartbeatLoop)).
  { apply IH. rewrite uint32_idem. exact Hwake. }
  unfold heartbeat_rounds. cbn [seq flat_map]. unfold heartbeat_round at 1.
  destruct (negb (sendHeartbeat_ret lib round masterNodeID =? ERROR_CODE_NOERROR)).
  - unfold ESP_LOGI. rewrite bind_emit, bind_answer, Hnext, Hwake. reflexivity.
  - unfold ret. rewrite bind_value, bind_answer, Hnext, Hwake. reflexivity.
Qed.

Lemma heartbeatTask_unfold (rate : Z) (lib : EPOS4) (t0 : Z) (fuel : nat) :
  heartbeatTask rate lib t0 fuel =
  (EvLog LOGI "heartbeatTask" "Starting Task" [] :: heartbeat_rounds lib rate t0 0 fuel,
   inr InHeartbeatLoop).
Proof.
  unfold heartbeatTask, ESP_LOGI. rewrite bind_emit.
  rewrite (heartbeat_loop_unfold rate lib t0 fuel 0 t0).
  - reflexivity.
  - f_equal. cbn. lia.
Qed.

Lemma heartbeats_in_rounds (lib : EPOS4) (rate t0 : Z) (n : nat) :
  forall round : nat,
    filter is_heartbeat (heartbeat_rounds lib rate t0 round n) =
    repeat (EvSendHeartbeat masterNodeID) n.
Proof.
  unfold heartbeat_rounds.
  induction n as [| n IH]; intros round; [reflexivity |].
  cbn [seq flat_map repeat]. rewrite filter_app, IH. unfold heartbeat_round.
  destruct (negb _); reflexivity.
Qed.

Lemma delays_in_rounds (lib : EPOS4) (rate t0 : Z) (n : nat) :
  forall round : nat,
    filter is_delay (heartbeat_rounds lib rate t0 round n) =
    map (fun i => EvTaskDelayUntil (uint32 (t0 + Z.of_nat (S i) * rate))) (seq round n).
Proof.
  unfold heartbeat_rounds.
  induction n as [| n IH]; intros round; [reflexivity |].
  cbn [seq flat_map map]. rewrite filter_app, IH. unfold heartbeat_round.
  destruct (negb _); reflexivity.
Qed.

Lemma heartbeat_period_one_second (rate : Z) :
  0 < rate -> heartbeat_period_ms rate = 1000.
Proof.
  intros H. unfold heartbeat_period_ms, ticks_to_ms, sendFrequency.
  rewrite Z.mul_comm. apply Z.div_mul. lia.
Qed.

(** C8: a run of [heartbeatTask] started at tick [t0] is a sequence of
    rounds, each made of one [sendHeartbeat(masterNodeID)], a log line when
    the send failed, and [xTaskDelayUntil] up to tick
    [t0 + k * configTICK_RATE_HZ] for round number [k] (32-bit ticks), that
    is one second after the previous wake-up.  Whatever the sends return,
    the wake-up ticks are the same and the task is still in its loop. *)
Theorem heartbeat_once_per_period
    (configTICK_RATE_HZ : Z) (lib : EPOS4) (t0 : Z) (fuel : nat) :
  0 < configTICK_RATE_HZ ->
  trace (heartbeatTask configTICK_RATE_HZ lib t0 fuel) =
    EvLog LOGI "heartbeatTask" "Starting Task" [] ::
    heartbeat_rounds lib configTICK_RATE_HZ t0 0 fuel /\
  outcome (heartbeatTask configTICK_RATE_HZ lib t0 fuel) = inr InHeartbeatLoop /\
  filter is_heartbeat (trace (heartbeatTask configTICK_RATE_HZ lib t0 fuel)) =
    repeat (EvSendHeartbeat masterNodeID) fuel /\
  filter is_delay (trace (heartbeatTask configTICK_RATE_HZ lib t0 fuel)) =
    map (fun k => EvTaskDelayUntil (uint32 (t0 + Z.of_nat (S k) * configTICK_RATE_HZ)))
      (seq 0 fuel) /\
  ticks_to_ms configTICK_RATE_HZ (sendFrequency configTICK_RATE_HZ) = 1000.
Proof.
  intros Hrate. rewrite heartbeatTask_unfold. cbn [trace outcome fst snd].
  split; [reflexivity |]. split; [reflexivity |].
  split; [cbn [filter is_heartbeat]; apply heartbeats_in_rounds |].
  split; [cbn [filter is_delay]; apply delays_in_rounds |].
  exact (heartbeat_period_one_second configTICK_RATE_HZ Hrate).
Qed.

Lemma heartbeat_once_per_period_witness :
  0 < 100 /\
  outcome (heartbeatTask 100 motor_heartbeat_fails 4294967196 3) = inr InHeartbeatLoop /\
  trace (heartbeatTask 100 motor_heartbeat_fails 4294967196 3) =
    [ EvLog LOGI "heartbeatTask" "Starting Task" [];
      EvSendHeartbeat 127;
      EvLog LOGI "heartbeatTask" "HEARTBEAT_SEND_ERROR" [];
      EvTaskDelayUntil 0;
      EvSendHeartbeat 127;
      EvTaskDelayUntil 100;
      EvSendHeartbeat 127;
      EvLog LOGI "heartbeatTask" "HEARTBEAT_SEND_ERROR" [];
      EvTaskDelayUntil 200 ].
Proof.
  assert (H : 0 < 100) by lia.
  split; [exact H |].
  destruct (heartbeat_once_per_period 100 motor_heartbeat_fails 4294967196 3 H)
    as [H1 [H2 _]].
  split; [exact H2 |]. rewrite H1. reflexivity.
Defined.

(** ** The liveness margin *)

Lemma consumer_in_failed_setup (G : ERROR_CODE_t) (motor : EPOS4) (fuel : nat)
    (node ms : Z) :
  In (EvSetHeartbeatConsumer node ms) (failed_setup_calls G motor ++ setup_failed_calls fuel) ->
  node = masterNodeID /\ ms = 1500.
Proof.
  intros H. apply in_app_or in H as [H | H].
  - unfold failed_setup_calls in H.
    destruct (negb (pre_operational_ok motor)); [in_concrete H |].
    destruct (negb (PDOHelper_ok G motor)); [in_concrete H |].
    cbn in H.
    repeat (destruct H as [H | H];
            [try discriminate H; try (injection H as <- <-; split; reflexivity) |]).
    contradiction.
  - destruct H as [H | H]; [discriminate H |].
    apply repeat_spec in H. discriminate H.
Qed.

Lemma consumer_in_motion (motor : EPOS4) (tail : list Event) (node ms : Z) :
  (forall e : Event, In e tail -> loop_event motor e) ->
  In (EvSetHeartbeatConsumer node ms) (motion_calls motor ++ tail) ->
  node = masterNodeID /\ ms = 1500.
Proof.
  intros Htail H. apply in_app_or in H as [H | H].
  - cbn in H.
    repeat (destruct H as [H | H];
            [try discriminate H; try (injection H as <- <-; split; reflexivity) |]).
    contradiction.
  - exfalso. apply Htail in H. destruct H as [[i H] | [H | H]].
    + in_concrete H.
    + unfold restore_calls, old_profile_writes in H.
      destruct (all_valid motor); in_concrete H.
    + in_concrete H.
Qed.

Lemma uint32_minus (a b : Z) : uint32 (a - b) = uint32 (uint32 a - uint32 b).
Proof. unfold uint32. apply Zminus_mod. Qed.

Lemma send_ticks_in_rounds (lib : EPOS4) (rate t0 : Z) (n : nat) :
  forall (round : nat) (now : Z),
    send_ticks now (heartbeat_rounds lib rate t0 round n) =
    match n with
    | O => []
    | S m =>
        (masterNodeID, now) ::
        map (fun k => (masterNodeID, uint32 (t0 + Z.of_nat (S k) * rate))) (seq round m)
    end.
Proof.
  unfold heartbeat_rounds.
  induction n as [| n IH]; intros round now; [reflexivity |].
  cbn [seq flat_map]. unfold heartbeat_round at 1.
  assert (Hstep : forall rest : list Event,
             send_ticks now
               ((EvSendHeartbeat masterNodeID ::
                 (if negb (sendHeartbeat_ret lib round masterNodeID =? ERROR_CODE_NOERROR)
                  then [EvLog LOGI "heartbeatTask" "HEARTBEAT_SEND_ERROR" []]
                  else []) ++
                 [EvTaskDelayUntil (uint32 (t0 + Z.of_nat (S round) * rate))]) ++ rest) =
             (masterNodeID, now) ::
             send_ticks (uint32 (t0 + Z.of_nat (S round) * rate)) rest).
  { intros rest. destruct (negb _); reflexivity. }
  rewrite Hstep, IH. destruct n as [| m]; reflexivity.
Qed.

Lemma gaps_between_wake_ups (rate t0 : Z) :
  0 < rate < 2 ^ 32 ->
  forall (m round : nat) (a : Z),
    uint32 a = uint32 (t0 + Z.of_nat round * rate) ->
    gaps_ms rate (a :: map (fun k => uint32 (t0 + Z.of_nat (S k) * rate)) (seq round m)) =
    repeat 1000 m.
Proof.
  intros Hrate. induction m as [| m IH]; intros round a Ha; [reflexivity |].
  cbn [seq map repeat]. cbn [gaps_ms]. f_equal.
  - rewrite uint32_minus, uint32_idem, Ha, <- uint32_minus.
    replace (t0 + Z.of_nat (S round) * rate - (t0 + Z.of_nat round * rate))
      with rate by lia.
    rewrite uint32_small by lia.
    unfold ticks_to_ms. rewrite Z.mul_comm. apply Z.div_mul. lia.
  - apply (IH (S round)). apply uint32_idem.
Qed.

Lemma heartbeat_send_ticks (rate : Z) (lib : EPOS4) (t0 : Z) (n : nat) :
  send_ticks t0 (trace (heartbeatTask rate lib t0 n)) =
  match n with
  | O => []
  | S m =>
      (masterNodeID, t0) ::
      map (fun k => (masterNodeID, uint32 (t0 + Z.of_nat (S k) * rate))) (seq 0 m)
  end.
Proof.
  rewrite heartbeatTask_unfold. cbn [trace fst send_ticks].
  apply send_ticks_in_rounds.
Qed.

Lemma heartbeat_gaps_one_second (rate : Z) (lib : EPOS4) (t0 : Z) (n : nat) :
  0 < rate < 2 ^ 32 ->
  heartbeat_gaps_ms rate lib t0 n = repeat 1000 (pred n).
Proof.
  intros Hrate. unfold heartbeat_gaps_ms. rewrite heartbeat_send_ticks.
  destruct n as [| m]; [reflexivity |].
  cbn [map snd pred]. rewrite map_map. cbn [snd].
  apply (gaps_between_wake_ups rate t0 Hrate m 0 t0).
  f_equal. cbn. lia.
Qed.

(** C10: the heartbeat task sends every heartbeat under the Node-ID 127,
    the first when it starts and each next one after an [xTaskDelayUntil]
    that wakes it [configTICK_RATE_HZ] ticks after the previous wake-up:
    consecutive heartbeats are 1000 ms apart.  The only heartbeat consumer
    [app_main] configures on the drive watches that same Node-ID with a
    timeout of 1500 ms, so the time between two heartbeats sent on time is
    strictly below the timeout. *)
Theorem heartbeat_period_below_consumer_timeout
    (configTICK_RATE_HZ : Z) (G : ERROR_CODE_t) (motor : EPOS4) (fuel : nat)
    (lib : EPOS4) (t0 : Z) (n : nat) :
  0 < configTICK_RATE_HZ < 2 ^ 32 ->
  map fst (send_ticks t0 (trace (heartbeatTask configTICK_RATE_HZ lib t0 n))) =
    repeat masterNodeID n /\
  heartbeat_gaps_ms configTICK_RATE_HZ lib t0 n = repeat 1000 (pred n) /\
  heartbeat_period_ms configTICK_RATE_HZ = 1000 /\
  (forall node ms : Z,
      In (EvSetHeartbeatConsumer node ms) (trace (app_main G motor fuel)) ->
      node = masterNodeID /\
      ms = heartbeat_consumer_timeout_ms /\
      heartbeat_period_ms configTICK_RATE_HZ < ms /\
      (forall gap : Z, In gap (heartbeat_gaps_ms configTICK_RATE_HZ lib t0 n) -> gap < ms) /\
      forall elapsed : Z, elapsed <= heartbeat_period_ms configTICK_RATE_HZ -> elapsed < ms) /\
  (forall node : Z,
      In (EvSendHeartbeat node) (trace (heartbeatTask configTICK_RATE_HZ lib t0 n)) ->
      node = masterNodeID) /\
  (pre_operational_ok motor = true -> PDOHelper_ok G motor = true ->
   In (EvSetHeartbeatConsumer masterNodeID heartbeat_consumer_timeout_ms)
      (trace (app_main G motor fuel))).
Proof.
  intros Hrate.
  assert (Hp : heartbeat_period_ms configTICK_RATE_HZ = 1000)
    by (apply heartbeat_period_one_second; lia).
  pose proof (heartbeat_gaps_one_second configTICK_RATE_HZ lib t0 n Hrate) as Hgaps.
  split; [| split; [exact Hgaps | split; [exact Hp | split; [| split]]]].
  - rewrite heartbeat_send_ticks. destruct n as [| m]; [reflexivity |].
    cbn [map fst repeat]. f_equal. rewrite map_map. cbn [fst].
    rewrite map_const, length_seq. reflexivity.
  - intros node ms H.
    assert (Hc : node = masterNodeID /\ ms = 1500).
    { destruct (setup_ok G motor) eqn:Hok.
      - destruct (app_main_tail G motor fuel Hok) as [tail [Htrace Htail]].
        rewrite Htrace in H. exact (consumer_in_motion motor tail node ms Htail H).
      - rewrite (app_main_setup_failed G motor fuel Hok) in H.
        exact (consumer_in_failed_setup G motor fuel node ms H). }
    destruct Hc as [-> ->]. rewrite Hp, Hgaps. unfold heartbeat_consumer_timeout_ms.
    split; [reflexivity |]. split; [reflexivity |]. split; [lia |].
    split.
    + intros gap Hgap. apply repeat_spec in Hgap. lia.
    + intros elapsed He. lia.
  - intros node H. rewrite heartbeatTask_unfold in H.
    cbn [trace fst] in H. destruct H as [H | H]; [discriminate H |].
    unfold heartbeat_rounds in H. apply in_flat_map in H as [i [_ H]].
    unfold heartbeat_round in H. destruct H as [H | H]; [congruence |].
    apply in_app_or in H as [H | H].
    + destruct (negb _); in_concrete H.
    + in_concrete H.
  - intros H1 H2. destruct (setup_ok G motor) eqn:Hok.
    + destruct (app_main_tail G motor fuel Hok) as [tail [Htrace _]].
      rewrite Htrace. apply in_or_app. left. cbn. tauto.
    + rewrite (app_main_setup_failed G motor fuel Hok).
      cbn [trace fst]. apply in_or_app. left.
      unfold failed_setup_calls. rewrite H1, H2. cbn. tauto.
Qed.

Lemma heartbeat_period_below_consumer_timeout_witness :
  0 < 1000 < 2 ^ 32 /\
  send_ticks 4294966796 (trace (heartbeatTask 1000 motor_heartbeat_fails 4294966796 3)) =
    [(127, 4294966796); (127, 500); (127, 1500)] /\
  heartbeat_gaps_ms 1000 motor_heartbeat_fails 4294966796 3 = [1000; 1000] /\
  In (EvSetHeartbeatConsumer 127 1500) (trace (app_main some_error motor_ok 2)).
Proof.
  assert (H : 0 < 1000 < 2 ^ 32) by lia.
  split; [exact H |]. split; [reflexivity |].
  destruct (heartbeat_period_below_consumer_timeout 1000 some_error motor_ok 2
              motor_heartbeat_fails 4294966796 3 H)
    as [_ [H2 [_ [_ [_ H6]]]]].
  split; [exact H2 |].
  apply H6; reflexivity.
Defined.

(** * Further properties *)

(** ** receiverTask *)

Lemma error_reaction_nil (r : Reaction) : error_reaction r = [].
Proof. destruct r; reflexivity. Qed.

Lemma receiver_loop_shape (lib : EPOS4) (receiver : twai_message_t -> ERROR_CODE_t)
    (twai_receive : nat -> option twai_message_t) (fuel : nat) :
  forall round : nat,
    receiver_loop lib receiver twai_receive fuel round =
    flat_map (fun k => RxTwaiReceive 1000 ::
                       match twai_receive k with
                       | Some m => [RxReceiver m]
                       | None => []
                       end)
      (seq round fuel).
Proof.
  induction fuel as [| fuel IH]; intros round; [reflexivity |].
  cbn [receiver_loop seq flat_map]. rewrite IH.
  destruct (twai_receive round); [rewrite error_reaction_nil |]; reflexivity.
Qed.

(** X1: the receiver task hands to [motor.receiver] exactly the frames the
    driver returned with [ESP_OK], each once and in the order of arrival;
    an attempt that returns no frame hands nothing on.  Every round makes
    one [twai_receive], and neither the code [receiver] returns nor its
    classification changes what the task calls: no error stops the task or
    makes it skip a frame. *)
Theorem receiverTask_delivers_received_frames
    (lib : EPOS4) (receiver : twai_message_t -> ERROR_CODE_t)
    (twai_receive : nat -> option twai_message_t) (fuel : nat) :
  delivered (receiverTask lib receiver twai_receive fuel) = received twai_receive 0 fuel /\
  length (filter is_twai_receive (receiverTask lib receiver twai_receive fuel)) = fuel /\
  forall (lib' : EPOS4) (receiver' : twai_message_t -> ERROR_CODE_t),
    receiverTask lib' receiver' twai_receive fuel =
    receiverTask lib receiver twai_receive fuel.
Proof.
  unfold receiverTask. split; [| split].
  - cbn [delivered flat_map app]. rewrite receiver_loop_shape.
    unfold received. generalize 0%nat.
    induction fuel as [| fuel IH]; intros round; [reflexivity |].
    cbn [seq flat_map]. rewrite flat_map_app, IH.
    destruct (twai_receive round); reflexivity.
  - cbn [filter is_twai_receive]. rewrite receiver_loop_shape. generalize 0%nat.
    induction fuel as [| fuel IH]; intros round; [reflexivity |].
    cbn [seq flat_map]. rewrite filter_app, length_app, IH.
    destruct (twai_receive round); reflexivity.
  - intros lib' receiver'. rewrite !receiver_loop_shape. reflexivity.
Qed.

Example receiverTask_sample_run :
  receiverTask motor_ok (fun m => identifier m) sample_bus 3 =
  [ RxLog "receiverTask" "Starting Task";
    RxTwaiReceive 1000; RxReceiver (mk_twai_message 1408 [0]);
    RxTwaiReceive 1000;
    RxTwaiReceive 1000; RxReceiver (mk_twai_message 1410 [2]) ].
Proof. reflexivity. Qed.

Lemma testbit_124 (i : Z) :
  Z.testbit 124 i = (2 <=? i) && (i <=? 6).
Proof.
  destruct (Z.ltb_spec i 0) as [Hneg | Hpos].
  { rewrite Z.testbit_neg_r by lia.
    destruct (Z.leb_spec 2 i); [lia | reflexivity]. }
  change 124 with (Z.shiftl (Z.ones 5) 2).
  rewrite Z.shiftl_spec by lia.
  destruct (Z.leb_spec 2 i) as [H2 | H2]; cbn [andb].
  - destruct (Z.leb_spec i 6) as [H6 | H6].
    + apply Z.ones_spec_low. lia.
    + apply Z.ones_spec_high. lia.
  - apply Z.testbit_neg_r. lia.
Qed.

Lemma land_124_nonzero (p : Z) :
  Z.land p 124 <> 0 <-> exists i : Z, 2 <= i <= 6 /\ Z.testbit p i = true.
Proof.
  split.
  - intros H.
    destruct (Z.testbit p 2) eqn:B2; [exists 2; split; [lia | exact B2] |].
    destruct (Z.testbit p 3) eqn:B3; [exists 3; split; [lia | exact B3] |].
    destruct (Z.testbit p 4) eqn:B4; [exists 4; split; [lia | exact B4] |].
    destruct (Z.testbit p 5) eqn:B5; [exists 5; split; [lia | exact B5] |].
    destruct (Z.testbit p 6) eqn:B6; [exists 6; split; [lia | exact B6] |].
    exfalso. apply H. apply Z.bits_inj'. intros n Hn.
    rewrite Z.land_spec, testbit_124, Z.bits_0.
    destruct (Z.leb_spec 2 n); [| apply andb_false_r].
    destruct (Z.leb_spec n 6); [| apply andb_false_r].
    assert (Hc : n = 2 \/ n = 3 \/ n = 4 \/ n = 5 \/ n = 6) by lia.
    destruct Hc as [-> | [-> | [-> | [-> | ->]]]];
      [rewrite B2 | rewrite B3 | rewrite B4 | rewrite B5 | rewrite B6]; reflexivity.
  - intros [i [Hi Hb]] H0.
    assert (Hz : Z.testbit (Z.land p 124) i = true).
    { rewrite Z.land_spec, Hb, testbit_124.
      destruct (Z.leb_spec 2 i); [| lia]. destruct (Z.leb_spec i 6); [reflexivity | lia]. }
    rewrite H0, Z.bits_0 in Hz. discriminate Hz.
Qed.

(** X2: the branch [receiverTask] takes on a parsed value: the master
    branch exactly on 1, the SDO branch exactly on 2, and the EPOS branch
    exactly when one of the bits 2 to 6 is set, whatever bits 0, 1 and 7
    upwards are; so a value that carries the master or the SDO bit
    together with a drive bit is handled as a drive error. *)
Theorem receiverTask_branch_by_bits (lib : EPOS4) (error_code : ERROR_CODE_t) :
  (receiverTask_reaction lib error_code = MasterError <-> parseError lib error_code = 1) /\
  (receiverTask_reaction lib error_code = SDOError <-> parseError lib error_code = 2) /\
  (receiverTask_reaction lib error_code = EPOSError <->
     exists i : Z, 2 <= i <= 6 /\ Z.testbit (parseError lib error_code) i = true).
Proof.
  rewrite <- land_124_nonzero.
  unfold receiverTask_reaction, is_master_error, is_sdo_error, is_epos_error.
  generalize (parseError lib error_code). intros p.
  destruct (Z.eqb_spec p 1) as [E1 | E1].
  { subst p. cbn. split; [tauto |]. split; split; try discriminate; intros H; lia. }
  destruct (Z.eqb_spec p 2) as [E2 | E2].
  { subst p. cbn. split; [split; [discriminate | intros H; lia] |].
    split; [tauto |]. split; [discriminate | intros H; lia]. }
  destruct (Z.eqb_spec (Z.land p 124) 0) as [E3 | E3]; cbn [negb].
  - split; [split; [discriminate | contradiction] |].
    split; [split; [discriminate | contradiction] |].
    split; [discriminate | contradiction].
  - split; [split; [discriminate | contradiction] |].
    split; [split; [discriminate | contradiction] |].
    split; [intros _; exact E3 | reflexivity].
Qed.

Example receiverTask_mixed_bits :
  receiverTask_reaction motor_ok 5 = EPOSError /\
  receiverTask_reaction motor_ok 6 = EPOSError /\
  receiverTask_reaction motor_ok 129 = NoReaction.
Proof. repeat split. Qed.

Lemma unclassified_8bit_check :
  forallb
    (fun n : nat =>
       let p := Z.of_nat n in
       Bool.eqb
         (negb (is_master_error p) && negb (is_sdo_error p) && negb (is_epos_error p))
         (existsb (Z.eqb p) unclassified_8bit))
    (seq 0 256) = true.
Proof. vm_compute. reflexivity. Qed.

(** X3: among the parsed values of 8 bits, the ones on which
    [receiverTask] takes no branch are exactly 0, 3, 128, 129, 130 and
    131. *)
Theorem receiverTask_unclassified_8bit (lib : EPOS4) (error_code : ERROR_CODE_t) :
  0 <= parseError lib error_code < 256 ->
  (receiverTask_reaction lib error_code = NoReaction <->
   In (parseError lib error_code) unclassified_8bit).
Proof.
  unfold receiverTask_reaction. generalize (parseError lib error_code).
  intros p Hp.
  pose proof unclassified_8bit_check as Hall. rewrite forallb_forall in Hall.
  specialize (Hall (Z.to_nat p)). rewrite Z2Nat.id in Hall by lia.
  assert (Hin : In (Z.to_nat p) (seq 0 256)) by (apply in_seq; lia).
  specialize (Hall Hin). cbv zeta in Hall. apply eqb_prop in Hall.
  assert (Hex : existsb (Z.eqb p) unclassified_8bit = true <-> In p unclassified_8bit).
  { rewrite existsb_exists. split.
    - intros [x [Hx Heq]]. apply Z.eqb_eq in Heq. subst x. exact Hx.
    - intros H. exists p. split; [exact H | apply Z.eqb_refl]. }
  rewrite <- Hex, <- Hall.
  destruct (is_master_error p); [split; discriminate |].
  destruct (is_sdo_error p); [split; discriminate |].
  destruct (is_epos_error p); [split; discriminate |].
  split; reflexivity.
Qed.

Lemma receiverTask_unclassified_8bit_witness :
  0 <= parseError motor_ok 130 < 256 /\
  receiverTask_reaction motor_ok 130 = NoReaction.
Proof.
  assert (H : 0 <= parseError motor_ok 130 < 256) by (cbn; lia).
  split; [exact H |].
  apply (receiverTask_unclassified_8bit motor_ok 130 H). cbn. tauto.
Defined.

(** ** app_main: the setup *)

(** X4: the setup stops at the first step that fails, and nothing of the
    later steps is called: after a refused pre-operational request no PDO
    is configured; after a failed [PDOHelper] no heartbeat consumer is set
    and the operational state is not requested; after a refused
    operational request the drive is not enabled.  What follows is the
    failure log and the waits. *)
Theorem setup_stops_at_first_failure (G : ERROR_CODE_t) (motor : EPOS4) (fuel : nat) :
  (pre_operational_ok motor = false ->
   trace (app_main G motor fuel) = startup_calls ++ setup_failed_calls fuel) /\
  (pre_operational_ok motor = true -> PDOHelper_ok G motor = false ->
   trace (app_main G motor fuel) =
   startup_calls ++ pdo_setup_calls ++ setup_failed_calls fuel) /\
  (pre_operational_ok motor = true -> PDOHelper_ok G motor = true ->
   operational_ok motor = false ->
   trace (app_main G motor fuel) =
   startup_calls ++ pdo_setup_calls ++ operational_calls ++ setup_failed_calls fuel).
Proof.
  split; [| split].
  - intros H1. rewrite app_main_setup_failed by (unfold setup_ok; rewrite H1; reflexivity).
    unfold failed_setup_calls. rewrite H1. reflexivity.
  - intros H1 H2.
    rewrite app_main_setup_failed by (unfold setup_ok; rewrite H1, H2; reflexivity).
    unfold failed_setup_calls. rewrite H1, H2. cbn [negb trace fst].
    rewrite <- app_assoc. reflexivity.
  - intros H1 H2 H3.
    rewrite app_main_setup_failed by (unfold setup_ok; rewrite H1, H2, H3; reflexivity).
    unfold failed_setup_calls. rewrite H1, H2. cbn [negb trace fst].
    rewrite <- !app_assoc. reflexivity.
Qed.

Lemma error_log_in_run (G : ERROR_CODE_t) (motor : EPOS4) (fuel : nat) (e : Event) :
  In e (trace (app_main G motor fuel)) ->
  is_error_log e = true ->
  setup_ok G motor = false /\ e = EvLog LOGE "DEMO" "Setup Failed!" [].
Proof.
  intros He Hlog. destruct (setup_ok G motor) eqn:Hok.
  - exfalso. destruct (app_main_tail G motor fuel Hok) as [tail [Htrace Htail]].
    rewrite Htrace in He. apply in_app_or in He as [He | He].
    + cbn in He.
      repeat (destruct He as [He | He]; [subst e; discriminate Hlog |]).
      contradiction.
    + apply Htail in He. destruct He as [[i He] | [He | He]].
      * cbn in He.
        repeat (destruct He as [He | He]; [subst e; discriminate Hlog |]).
        contradiction.
      * unfold restore_calls, old_profile_writes in He.
        destruct (all_valid motor); cbn in He;
          repeat (destruct He as [He | He]; [subst e; discriminate Hlog |]);
          contradiction.
      * cbn in He.
        repeat (destruct He as [He | He]; [subst e; discriminate Hlog |]).
        contradiction.
  - split; [reflexivity |].
    rewrite (app_main_setup_failed G motor fuel Hok) in He. cbn [trace fst] in He.
    apply in_app_or in He as [He | He].
    + exfalso. unfold failed_setup_calls in He.
      destruct (negb (pre_operational_ok motor));
        [| destruct (negb (PDOHelper_ok G motor))];
        cbn in He;
        repeat (destruct He as [He | He]; [subst e; discriminate Hlog |]);
        contradiction.
    + destruct He as [He | He]; [symmetry; exact He |].
      apply repeat_spec in He. subst e. discriminate Hlog.
Qed.

(** X5: [app_main] logs at the error level exactly when the setup failed:
    a run holds the line "Setup Failed!" if and only if one of the three
    steps did not return [ERROR_CODE_NOERROR], it holds it once, and it is
    the only error-level line of any run. *)
Theorem setup_failed_logged_iff_failed (G : ERROR_CODE_t) (motor : EPOS4) (fuel : nat) :
  (In (EvLog LOGE "DEMO" "Setup Failed!" []) (trace (app_main G motor fuel)) <->
   setup_ok G motor = false) /\
  filter is_error_log (trace (app_main G motor fuel)) =
    (if setup_ok G motor then [] else [EvLog LOGE "DEMO" "Setup Failed!" []]) /\
  (forall e : Event,
      In e (trace (app_main G motor fuel)) -> is_error_log e = true ->
      e = EvLog LOGE "DEMO" "Setup Failed!" []).
Proof.
  assert (Hfilter : filter is_error_log (trace (app_main G motor fuel)) =
            (if setup_ok G motor then [] else [EvLog LOGE "DEMO" "Setup Failed!" []])).
  { destruct (setup_ok G motor) eqn:Hok.
    - destruct (filter is_error_log (trace (app_main G motor fuel))) as [| e l] eqn:Hf;
        [reflexivity |].
      assert (He : In e (filter is_error_log (trace (app_main G motor fuel))))
        by (rewrite Hf; left; reflexivity).
      apply filter_In in He as [He Hlog].
      destruct (error_log_in_run G motor fuel e He Hlog) as [Hno _]. congruence.
    - rewrite (app_main_setup_failed G motor fuel Hok). cbn [trace fst].
      rewrite filter_app.
      assert (H1 : filter is_error_log (failed_setup_calls G motor) = []).
      { unfold failed_setup_calls.
        destruct (negb (pre_operational_ok motor));
          [| destruct (negb (PDOHelper_ok G motor))]; reflexivity. }
      rewrite H1. unfold setup_failed_calls. cbn [filter is_error_log app].
      f_equal. induction fuel as [| fuel IH]; [reflexivity | exact IH]. }
  split; [| split; [exact Hfilter |]].
  - split.
    + intros H. exact (proj1 (error_log_in_run G motor fuel _ H eq_refl)).
    + intros Hok. rewrite (app_main_setup_failed G motor fuel Hok).
      cbn [trace fst]. apply in_or_app. right. left. reflexivity.
  - intros e He Hlog. exact (proj2 (error_log_in_run G motor fuel e He Hlog)).
Qed.

(** ** app_main: what comes before a move *)

(** In a list that starts with [A ++ x :: _], an element with the property
    [P], which nothing in [A] and not [x] has, comes after [x]. *)
Lemma split_after (P : Event -> bool) (x : Event) (A : list Event) :
  forallb (fun a => negb (P a)) A = true ->
  P x = false ->
  forall (R pre : list Event) (e : Event) (post : list Event),
    A ++ x :: R = pre ++ e :: post ->
    P e = true ->
    exists mid : list Event, pre = A ++ x :: mid.
Proof.
  intros HA Hx. induction A as [| a A IH]; intros R pre e post Heq He.
  - destruct pre as [| b pre]; cbn in Heq.
    + injection Heq as -> _. congruence.
    + injection Heq as <- _. exists pre. reflexivity.
  - cbn [forallb] in HA. apply andb_prop in HA as [Ha HA].
    destruct pre as [| b pre]; cbn in Heq.
    + injection Heq as -> _. rewrite He in Ha. discriminate Ha.
    + injection Heq as <- Heq.
      destruct (IH HA R pre e post Heq He) as [mid ->].
      exists mid. reflexivity.
Qed.

Lemma motion_calls_around_enable (motor : EPOS4) (tail : list Event) :
  motion_calls motor ++ tail =
  before_enable_calls ++ EvEnable :: (after_enable_calls motor ++ tail).
Proof. reflexivity. Qed.

Lemma motion_calls_around_TxPDO (motor : EPOS4) (tail : list Event) :
  motion_calls motor ++ tail =
  before_TxPDO_calls ++
  EvConfigPDO TxPDO_StatusWord_Position configuration_TXPDO1 ::
  (after_TxPDO_calls motor ++ tail).
Proof. reflexivity. Qed.

Lemma move_is_motion (e : Event) :
  is_move_command e = true -> is_motion_command e = true.
Proof. destruct e; cbn; congruence. Qed.

Lemma move_needs_setup (G : ERROR_CODE_t) (motor : EPOS4) (fuel : nat)
    (pre post : list Event) (e : Event) :
  trace (app_main G motor fuel) = pre ++ e :: post ->
  is_move_command e = true ->
  setup_ok G motor = true.
Proof.
  intros Hsplit He. destruct (setup_ok G motor) eqn:Hok; [reflexivity |].
  assert (Hin : In e (trace (app_main G motor fuel)))
    by (rewrite Hsplit; apply in_elt).
  apply (failed_run_without_motion G motor fuel Hok) in Hin.
  apply move_is_motion in He. congruence.
Qed.

(** X6: no move without a completed setup and an enabled drive: wherever
    a run of [app_main] calls [moveToTargetVelocity],
    [moveToTargetPosition], [sendRxPDO] or [broadcastSync], the three
    setup steps have succeeded and the calls made before it start with the
    whole setup (the PDO configuration, the heartbeat consumer, the
    operational request) followed by [halt] and [enable]. *)
Theorem moves_only_after_enable
    (G : ERROR_CODE_t) (motor : EPOS4) (fuel : nat)
    (pre post : list Event) (e : Event) :
  trace (app_main G motor fuel) = pre ++ e :: post ->
  is_move_command e = true ->
  setup_ok G motor = true /\
  (exists mid : list Event, pre = before_enable_calls ++ EvEnable :: mid) /\
  In (EvChangeNMTState NMT_COMMAND_GOTO_OPERATIONAL) pre /\
  In EvEnable pre.
Proof.
  intros Hsplit He.
  pose proof (move_needs_setup G motor fuel pre post e Hsplit He) as Hok.
  destruct (app_main_tail G motor fuel Hok) as [tail [Htrace _]].
  rewrite Htrace, motion_calls_around_enable in Hsplit.
  destruct (split_after is_move_command EvEnable before_enable_calls
              eq_refl eq_refl _ pre e post Hsplit He) as [mid ->].
  split; [exact Hok |]. split; [exists mid; reflexivity |].
  split; apply in_or_app; [left; cbn; tauto | right; left; reflexivity].
Qed.

Lemma moves_only_after_enable_witness :
  is_move_command (EvMoveToTargetVelocity 120) = true /\
  In EvEnable (firstn 27 (trace (app_main some_error motor_ok 1))).
Proof.
  assert (Hsplit : trace (app_main some_error motor_ok 1) =
                   firstn 27 (trace (app_main some_error motor_ok 1)) ++
                   EvMoveToTargetVelocity 120 ::
                   skipn 28 (trace (app_main some_error motor_ok 1)))
    by (vm_compute; reflexivity).
  split; [reflexivity |].
  destruct (moves_only_after_enable some_error motor_ok 1 _ _ _ Hsplit eq_refl)
    as [_ [_ [_ H]]].
  exact H.
Defined.

Lemma sendRxPDO_in_run (motor : EPOS4) (tail : list Event)
    (name : string) (values : list Z) :
  (forall e : Event, In e tail -> loop_event motor e) ->
  In (EvSendRxPDO name values) (motion_calls motor ++ tail) ->
  (name = RxPDO_ControlWord_Synchronous /\ values = [sync_control_word motor]) \/
  (name = RxPDO_Profile_Velocity /\ exists v : Z, values = [v]).
Proof.
  intros Htail H. apply in_app_or in H as [H | H].
  - cbn in H.
    repeat (destruct H as [H | H];
            [try discriminate H;
             try (injection H as <- <-;
                  first [left; split; reflexivity
                        | right; split; [reflexivity | eexists; reflexivity]]) |]).
    contradiction.
  - apply Htail in H. destruct H as [[i H] | [H | H]].
    + in_concrete H.
    + unfold restore_calls, old_profile_writes in H.
      destruct (all_valid motor); cbn in H;
        repeat (destruct H as [H | H];
                [try discriminate H;
                 try (injection H as <- <-;
                      right; split; [reflexivity | eexists; reflexivity]) |]);
        contradiction.
    + in_concrete H.
Qed.

(** X7: every [sendRxPDO] of a run goes to a receive PDO that [PDOHelper]
    has configured under the same name earlier in the run, with as many
    values as the PDO has mapped objects; the configuration is synchronous
    exactly for the control-word PDO, the one written before the SYNC. *)
Theorem sendRxPDO_uses_configured_pdo
    (G : ERROR_CODE_t) (motor : EPOS4) (fuel : nat)
    (pre post : list Event) (name : string) (values : list Z) :
  trace (app_main G motor fuel) = pre ++ EvSendRxPDO name values :: post ->
  exists cfg : PDO_MAPPING_t,
    In (EvConfigPDO name cfg) pre /\
    In (pdo_channel cfg) [RXPDO1; RXPDO2] /\
    length values = length (pdo_objects cfg) /\
    (pdo_mode cfg = PDO_TRANSMISSION_MODE_SYNC <-> name = RxPDO_ControlWord_Synchronous).
Proof.
  intros Hsplit.
  pose proof (move_needs_setup G motor fuel pre post _ Hsplit eq_refl) as Hok.
  destruct (app_main_tail G motor fuel Hok) as [tail [Htrace Htail]].
  rewrite Htrace in Hsplit.
  assert (Hin : In (EvSendRxPDO name values) (motion_calls motor ++ tail))
    by (rewrite Hsplit; apply in_elt).
  rewrite motion_calls_around_TxPDO in Hsplit.
  destruct (split_after is_sendRxPDO
              (EvConfigPDO TxPDO_StatusWord_Position configuration_TXPDO1)
              before_TxPDO_calls eq_refl eq_refl _ pre _ post Hsplit eq_refl)
    as [mid ->].
  destruct (sendRxPDO_in_run motor tail name values Htail Hin)
    as [[-> ->] | [-> [v ->]]].
  - exists configuration_RXPDO1.
    split; [apply in_or_app; left; cbn; tauto |].
    split; [cbn; tauto |]. split; [reflexivity |]. split; reflexivity.
  - exists configuration_RXPDO2.
    split; [apply in_or_app; left; cbn; tauto |].
    split; [cbn; tauto |]. split; [reflexivity |].
    split; intros H; discriminate H.
Qed.

Lemma sendRxPDO_uses_configured_pdo_witness :
  exists cfg : PDO_MAPPING_t,
    In (EvConfigPDO RxPDO_ControlWord_Synchronous cfg)
       (firstn 46 (trace (app_main some_error motor_ok 1))) /\
    pdo_mode cfg = PDO_TRANSMISSION_MODE_SYNC.
Proof.
  assert (Hsplit : trace (app_main some_error motor_ok 1) =
                   firstn 46 (trace (app_main some_error motor_ok 1)) ++
                   EvSendRxPDO RxPDO_ControlWord_Synchronous [63] ::
                   skipn 47 (trace (app_main some_error motor_ok 1)))
    by (vm_compute; reflexivity).
  destruct (sendRxPDO_uses_configured_pdo some_error motor_ok 1 _ _ _ _ Hsplit)
    as [cfg [H1 [_ [_ H4]]]].
  exists cfg. split; [exact H1 | apply H4; reflexivity].
Defined.

(** ** app_main: the poll loop and after *)

Lemma count_in_poll_rounds (P : Event -> bool) (motor : EPOS4) (c : nat) :
  (forall i : nat, length (filter P (poll_round motor i)) = c) ->
  forall n round : nat,
    length (filter P (poll_rounds motor round n)) = (n * c)%nat.
Proof.
  intros Hc. unfold poll_rounds.
  induction n as [| n IH]; intros round; [reflexivity |].
  cbn [seq flat_map]. rewrite filter_app, length_app, IH, Hc. reflexivity.
Qed.

Lemma count_in_demo_rounds (P : Event -> bool) (n : nat) :
  length (filter P (demo_rounds n)) = (n * length (filter P demo_round))%nat.
Proof.
  unfold demo_rounds. induction n as [| n IH]; [reflexivity |].
  cbn [repeat concat]. rewrite filter_app, length_app, IH. reflexivity.
Qed.

(** X8: the poll loop ends at the first poll that reads 1.  When that is
    poll number [k] (counted from 0), the run has polled the status word
    [k + 1] times and read the velocity and the position [k] times each,
    whatever the bound beyond [k]; the end of the motion is logged once,
    and the run then makes one move to position 500 for each round of the
    demo loop. *)
Theorem poll_loop_ends_at_first_reached
    (G : ERROR_CODE_t) (motor : EPOS4) (fuel k : nat) :
  setup_ok G motor = true ->
  (forall i : nat, (i < k)%nat -> target_reached_at motor i = false) ->
  target_reached_at motor k = true ->
  (k < fuel)%nat ->
  length (filter is_poll (trace (app_main G motor fuel))) = S k /\
  length (filter is_getODvalue (trace (app_main G motor fuel))) = (k * 2)%nat /\
  length (filter is_motion_complete_log (trace (app_main G motor fuel))) = 1%nat /\
  length (filter is_demo_move (trace (app_main G motor fuel))) = fuel /\
  outcome (app_main G motor fuel) = inr InDemoLoop.
Proof.
  intros Hok Hno Hyes Hk.
  rewrite (app_main_demo G motor fuel k Hok Hno Hyes Hk).
  cbn [trace outcome fst snd].
  rewrite !filter_app, !length_app.
  rewrite !count_in_demo_rounds.
  rewrite (count_in_poll_rounds is_poll motor 1) by reflexivity.
  rewrite (count_in_poll_rounds is_getODvalue motor 2) by reflexivity.
  rewrite (count_in_poll_rounds is_motion_complete_log motor 0) by reflexivity.
  rewrite (count_in_poll_rounds is_demo_move motor 0) by reflexivity.
  unfold restore_calls, old_profile_writes.
  destruct (all_valid motor); cbn; repeat split; lia.
Qed.

Lemma poll_loop_ends_at_first_reached_witness :
  setup_ok some_error motor_ok = true /\
  target_reached_at motor_ok 2 = true /\
  length (filter is_poll (trace (app_main some_error motor_ok 5))) = 3%nat /\
  length (filter is_demo_move (trace (app_main some_error motor_ok 5))) = 5%nat.
Proof.
  assert (Hok : setup_ok some_error motor_ok = true) by reflexivity.
  assert (Hno : forall i : nat, (i < 2)%nat -> target_reached_at motor_ok i = false).
  { intros i Hi. destruct i as [| [| i]]; [reflexivity | reflexivity | lia]. }
  assert (Hyes : target_reached_at motor_ok 2 = true) by reflexivity.
  assert (Hk : (2 < 5)%nat) by lia.
  split; [exact Hok |]. split; [exact Hyes |].
  destruct (poll_loop_ends_at_first_reached some_error motor_ok 5 2 Hok Hno Hyes Hk)
    as [H1 [_ [_ [H4 _]]]].
  split; [exact H1 | exact H4].
Defined.

Lemma uint8_range (a : Z) : 0 <= uint8 a < 256.
Proof. unfold uint8. apply Z.mod_pos_bound. reflexivity. Qed.

Lemma all_valid_of_flags (motor : EPOS4) :
  is_flag (status_of motor EPOS_OD_PROFILE_VELOCITY) ->
  is_flag (status_of motor EPOS_OD_PROFILE_ACCELERATION) ->
  is_flag (status_of motor EPOS_OD_PROFILE_DECELERATION) ->
  (all_valid motor = true <->
   status_of motor EPOS_OD_PROFILE_VELOCITY = 1 /\
   status_of motor EPOS_OD_PROFILE_ACCELERATION = 1 /\
   status_of motor EPOS_OD_PROFILE_DECELERATION = 1).
Proof.
  unfold all_valid, valid_flag, status_of.
  intros [-> | ->] [-> | ->] [-> | ->]; cbn;
    split; solve [ intros H; discriminate H
                 | intros [E1 [E2 E3]]; discriminate
                 | intros _; repeat split ].
Qed.

Lemma restore_log_in_run (G : ERROR_CODE_t) (motor : EPOS4) (fuel k : nat)
    (lvl : LogLevel) (msg : string) :
  setup_ok G motor = true ->
  (forall i : nat, (i < k)%nat -> target_reached_at motor i = false) ->
  target_reached_at motor k = true ->
  (k < fuel)%nat ->
  msg = "Returning to Old Profile"%string \/ msg = "Old Profile invalid"%string ->
  (In (EvLog lvl "SYNC Motion" msg []) (trace (app_main G motor fuel)) <->
   In (EvLog lvl "SYNC Motion" msg []) (restore_calls motor)).
Proof.
  intros Hok Hno Hyes Hk Hmsg.
  rewrite (app_main_demo G motor fuel k Hok Hno Hyes Hk). cbn [trace fst].
  split.
  - intros H. apply in_app_or in H as [H | H].
    { exfalso. destruct Hmsg as [-> | ->]; in_concrete H. }
    apply in_app_or in H as [H | H].
    { exfalso. apply in_app_or in H as [H | H].
      - apply in_poll_rounds in H as [i H].
        destruct Hmsg as [-> | ->]; in_concrete H.
      - destruct Hmsg as [-> | ->]; in_concrete H. }
    apply in_app_or in H as [H | H]; [exact H |].
    exfalso. apply in_demo_rounds in H.
    destruct Hmsg as [-> | ->]; in_concrete H.
  - intros H. apply in_or_app. right. apply in_or_app. right.
    apply in_or_app. left. exact H.
Qed.

(** X9: the [statusAll] that [save_profile] hands on is a value of 8
    bits.  When each of the three statuses [getODpair] returned is a flag
    (0 or 1), it is 1 if the three are 1 and 0 otherwise; the writes of
    [return_to_old_profile] on what [save_profile] returned are the three
    old values exactly when the three statuses are 1; and a run of
    [app_main] that gets past the poll loop logs "Returning to Old
    Profile" exactly then, and the warning "Old Profile invalid" exactly
    when one status is 0. *)
Theorem statusAll_of_flags (motor : EPOS4) (statusAll vel accel decel : Z) :
  is_flag (status_of motor EPOS_OD_PROFILE_VELOCITY) ->
  is_flag (status_of motor EPOS_OD_PROFILE_ACCELERATION) ->
  is_flag (status_of motor EPOS_OD_PROFILE_DECELERATION) ->
  outcome (save_profile motor) = inl (statusAll, vel, accel, decel) ->
  0 <= statusAll < 256 /\
  statusAll =
    (if (status_of motor EPOS_OD_PROFILE_VELOCITY =? 1) &&
        (status_of motor EPOS_OD_PROFILE_ACCELERATION =? 1) &&
        (status_of motor EPOS_OD_PROFILE_DECELERATION =? 1)
     then 1 else 0) /\
  (filter is_write (trace (return_to_old_profile motor statusAll vel accel decel)) =
     [ EvSendRxPDO RxPDO_Profile_Velocity [vel];
       EvSendSDO EPOS_OD_PROFILE_ACCELERATION accel (Some 1);
       EvSendSDO EPOS_OD_PROFILE_DECELERATION decel (Some 1) ] <->
   status_of motor EPOS_OD_PROFILE_VELOCITY = 1 /\
   status_of motor EPOS_OD_PROFILE_ACCELERATION = 1 /\
   status_of motor EPOS_OD_PROFILE_DECELERATION = 1) /\
  (forall (G : ERROR_CODE_t) (fuel k : nat),
      setup_ok G motor = true ->
      (forall i : nat, (i < k)%nat -> target_reached_at motor i = false) ->
      target_reached_at motor k = true ->
      (k < fuel)%nat ->
      (In (EvLog LOGI "SYNC Motion" "Returning to Old Profile" [])
          (trace (app_main G motor fuel)) <->
       status_of motor EPOS_OD_PROFILE_VELOCITY = 1 /\
       status_of motor EPOS_OD_PROFILE_ACCELERATION = 1 /\
       status_of motor EPOS_OD_PROFILE_DECELERATION = 1) /\
      (In (EvLog LOGW "SYNC Motion" "Old Profile invalid" [])
          (trace (app_main G motor fuel)) <->
       ~ (status_of motor EPOS_OD_PROFILE_VELOCITY = 1 /\
          status_of motor EPOS_OD_PROFILE_ACCELERATION = 1 /\
          status_of motor EPOS_OD_PROFILE_DECELERATION = 1))).
Proof.
  intros H1 H2 H3 Hsave.
  rewrite save_profile_unfold in Hsave. cbn [outcome snd] in Hsave.
  injection Hsave as <- <- <- <-.
  pose proof (all_valid_of_flags motor H1 H2 H3) as Hvalid.
  split; [apply uint8_range |]. split; [| split].
  - unfold saved_statusAll, status_of in *.
    destruct H1 as [-> | ->], H2 as [-> | ->], H3 as [-> | ->]; reflexivity.
  - rewrite <- Hvalid, return_to_old_profile_unfold, saved_statusAll_bit0.
    cbn [trace fst]. unfold oldVel, oldAccel, oldDecel.
    destruct (all_valid motor); cbn; split; solve [reflexivity | discriminate].
  - intros G fuel k Hok Hno Hyes Hk. rewrite <- Hvalid. split.
    + rewrite (restore_log_in_run G motor fuel k LOGI _ Hok Hno Hyes Hk)
        by (left; reflexivity).
      unfold restore_calls, old_profile_writes.
      destruct (all_valid motor); split; intros H;
        solve [reflexivity | discriminate H | cbn; tauto | in_concrete H].
    + rewrite (restore_log_in_run G motor fuel k LOGW _ Hok Hno Hyes Hk)
        by (right; reflexivity).
      unfold restore_calls, old_profile_writes.
      destruct (all_valid motor); split; intros H;
        solve [ in_concrete H | exfalso; apply H; reflexivity
              | discriminate | cbn; tauto ].
Qed.

Lemma statusAll_of_flags_witness :
  is_flag (status_of motor_ok EPOS_OD_PROFILE_VELOCITY) /\
  is_flag (status_of motor_ok EPOS_OD_PROFILE_ACCELERATION) /\
  is_flag (status_of motor_ok EPOS_OD_PROFILE_DECELERATION) /\
  outcome (save_profile motor_ok) = inl (1, 3000, 10000, 10000) /\
  In (EvLog LOGI "SYNC Motion" "Returning to Old Profile" [])
     (trace (app_main some_error motor_ok 3)).
Proof.
  assert (H1 : is_flag (status_of motor_ok EPOS_OD_PROFILE_VELOCITY)) by (right; reflexivity).
  assert (H2 : is_flag (status_of motor_ok EPOS_OD_PROFILE_ACCELERATION)) by (right; reflexivity).
  assert (H3 : is_flag (status_of motor_ok EPOS_OD_PROFILE_DECELERATION)) by (right; reflexivity).
  assert (Hsave : outcome (save_profile motor_ok) = inl (1, 3000, 10000, 10000))
    by reflexivity.
  split; [exact H1 |]. split; [exact H2 |]. split; [exact H3 |].
  split; [exact Hsave |].
  destruct (statusAll_of_flags motor_ok 1 3000 10000 10000 H1 H2 H3 Hsave)
    as [_ [_ [_ H]]].
  assert (Hno : forall i : nat, (i < 2)%nat -> target_reached_at motor_ok i = false).
  { intros i Hi. destruct i as [| [| i]]; [reflexivity | reflexivity | lia]. }
  destruct (H some_error 3%nat 2%nat eq_refl Hno eq_refl) as [Hlog _]; [lia |].
  apply Hlog. repeat split.
Defined.

(** ** app_main: the start *)

Ltac not_startup H :=
  cbn in H; repeat (destruct H as [<- | H]; [reflexivity |]); contradiction.

Lemma loop_event_not_startup (motor : EPOS4) (e : Event) :
  loop_event motor e -> is_startup_call e = false.
Proof.
  intros [[i H] | [H | H]].
  - not_startup H.
  - unfold restore_calls, old_profile_writes in H.
    destruct (all_valid motor); not_startup H.
  - not_startup H.
Qed.

(** X10: every run of [app_main], whatever the drive answers, starts with
    the log level, the TWAI setup, the creation of the receiver and the
    heartbeat tasks, [disable], [clearError] and the pre-operational
    request, in this order; none of the first six is called again: in
    particular no run disables the drive after it has enabled it. *)
Theorem starts_from_known_state (G : ERROR_CODE_t) (motor : EPOS4) (fuel : nat) :
  exists rest : list Event,
    trace (app_main G motor fuel) = startup_calls ++ rest /\
    Forall (fun e => is_startup_call e = false) rest.
Proof.
  destruct (setup_ok G motor) eqn:Hok.
  - destruct (app_main_tail G motor fuel Hok) as [tail [Htrace Htail]].
    exists ((pdo_setup_calls ++ operational_calls ++ profile_mode_calls ++
             save_profile_calls ++ configure_sync_calls motor ++
             EvBroadcastSync :: after_sync_calls motor) ++ tail).
    split.
    + rewrite Htrace. unfold motion_calls. rewrite <- app_assoc. reflexivity.
    + apply Forall_app. split.
      * repeat constructor.
      * apply Forall_forall. intros e He.
        exact (loop_event_not_startup motor e (Htail e He)).
  - rewrite (app_main_setup_failed G motor fuel Hok). cbn [trace fst].
    unfold failed_setup_calls, setup_failed_calls.
    assert (Hloop : Forall (fun e => is_startup_call e = false)
                      (EvLog LOGE "DEMO" "Setup Failed!" [] :: repeat (EvWait 1000) fuel)).
    { constructor; [reflexivity |]. apply Forall_forall. intros e He.
      apply repeat_spec in He. subst e. reflexivity. }
    destruct (negb (pre_operational_ok motor)).
    + eexists. split; [reflexivity | exact Hloop].
    + destruct (negb (PDOHelper_ok G motor)).
      * exists (pdo_setup_calls ++
                EvLog LOGE "DEMO" "Setup Failed!" [] :: repeat (EvWait 1000) fuel).
        split; [rewrite <- app_assoc; reflexivity |].
        apply Forall_app. split; [repeat constructor | exact Hloop].
      * exists ((pdo_setup_calls ++ operational_calls) ++
                EvLog LOGE "DEMO" "Setup Failed!" [] :: repeat (EvWait 1000) fuel).
        split; [rewrite <- !app_assoc; reflexivity |].
        apply Forall_app. split; [repeat constructor | exact Hloop].
Qed.

(** ** heartbeatTask: failed sends and the tick counter *)

Lemma error_logs_in_rounds (lib : EPOS4) (rate t0 : Z) (n : nat) :
  forall round : nat,
    length (filter is_send_error_log (heartbeat_rounds lib rate t0 round n)) =
    length (filter (send_failed lib) (seq round n)).
Proof.
  unfold heartbeat_rounds.
  induction n as [| n IH]; intros round; [reflexivity |].
  cbn [seq flat_map filter]. rewrite filter_app, length_app, IH.
  unfold heartbeat_round, send_failed.
  destruct (negb (sendHeartbeat_ret lib round masterNodeID =? ERROR_CODE_NOERROR));
    reflexivity.
Qed.

Lemma heartbeat_rounds_length (lib : EPOS4) (rate t0 : Z) (n : nat) :
  forall round : nat,
    length (heartbeat_rounds lib rate t0 round n) =
    (2 * n + length (filter (send_failed lib) (seq round n)))%nat.
Proof.
  unfold heartbeat_rounds.
  induction n as [| n IH]; intros round; [reflexivity |].
  cbn [seq flat_map filter]. rewrite length_app, IH.
  unfold heartbeat_round, send_failed.
  destruct (negb (sendHeartbeat_ret lib round masterNodeID =? ERROR_CODE_NOERROR));
    cbn [length app]; lia.
Qed.

(** X11: the heartbeat task logs "HEARTBEAT_SEND_ERROR" once for each send
    that failed and never otherwise, and it makes no other call for a
    failure: apart from the start line, a run of [n] rounds is made of the
    [n] sends, the [n] delays and one log line per failed send. *)
Theorem heartbeat_logs_each_failed_send
    (configTICK_RATE_HZ : Z) (lib : EPOS4) (t0 : Z) (fuel : nat) :
  length (filter is_send_error_log (trace (heartbeatTask configTICK_RATE_HZ lib t0 fuel))) =
    length (failed_sends lib fuel) /\
  length (trace (heartbeatTask configTICK_RATE_HZ lib t0 fuel)) =
    (1 + 2 * fuel + length (failed_sends lib fuel))%nat /\
  (failed_sends lib fuel = [] ->
   filter is_send_error_log (trace (heartbeatTask configTICK_RATE_HZ lib t0 fuel)) = []).
Proof.
  rewrite heartbeatTask_unfold. cbn [trace fst filter is_send_error_log String.eqb].
  assert (Hlogs := error_logs_in_rounds lib configTICK_RATE_HZ t0 fuel 0).
  fold (failed_sends lib fuel) in Hlogs.
  split; [exact Hlogs |]. split.
  - cbn [length]. rewrite heartbeat_rounds_length. unfold failed_sends. lia.
  - intros Hnone. rewrite Hnone in Hlogs. cbn [length] in Hlogs.
    apply length_zero_iff_nil. exact Hlogs.
Qed.

Lemma uint32_range (a : Z) : 0 <= uint32 a < 2 ^ 32.
Proof. unfold uint32. apply Z.mod_pos_bound. reflexivity. Qed.

Lemma uint32_sub (a b : Z) : uint32 (uint32 a - uint32 b) = uint32 (a - b).
Proof. unfold uint32. symmetry. apply Zminus_mod. Qed.

(** X12: the wake-up ticks of the heartbeat task are ticks of 32 bits, and
    two wake-ups in a row are [configTICK_RATE_HZ] ticks apart on the
    32-bit counter, also when the counter wraps around between them; as
    long as the counter does not reach 2^32, wake-up [k] is exactly
    [t0 + (k + 1) * configTICK_RATE_HZ]. *)
Theorem heartbeat_schedule_wraps
    (configTICK_RATE_HZ : Z) (lib : EPOS4) (t0 : Z) (fuel : nat) :
  0 <= configTICK_RATE_HZ < 2 ^ 32 ->
  filter is_delay (trace (heartbeatTask configTICK_RATE_HZ lib t0 fuel)) =
    map (fun k => EvTaskDelayUntil (wake_tick configTICK_RATE_HZ t0 k)) (seq 0 fuel) /\
  (forall k : nat,
      0 <= wake_tick configTICK_RATE_HZ t0 k < 2 ^ 32 /\
      uint32 (wake_tick configTICK_RATE_HZ t0 (S k) - wake_tick configTICK_RATE_HZ t0 k) =
        configTICK_RATE_HZ) /\
  (forall k : nat,
      0 <= t0 -> t0 + Z.of_nat (S k) * configTICK_RATE_HZ < 2 ^ 32 ->
      wake_tick configTICK_RATE_HZ t0 k = t0 + Z.of_nat (S k) * configTICK_RATE_HZ).
Proof.
  intros Hrate. split; [| split].
  - rewrite heartbeatTask_unfold. cbn [trace fst filter is_delay].
    apply delays_in_rounds.
  - intros k. unfold wake_tick. split; [apply uint32_range |].
    rewrite uint32_sub.
    replace (t0 + Z.of_nat (S (S k)) * configTICK_RATE_HZ -
             (t0 + Z.of_nat (S k) * configTICK_RATE_HZ))
      with configTICK_RATE_HZ by lia.
    apply uint32_small. exact Hrate.
  - intros k Ht0 Hmax. unfold wake_tick. apply uint32_small. nia.
Qed.

Lemma heartbeat_schedule_wraps_witness :
  0 <= 100 < 2 ^ 32 /\
  wake_tick 100 4294967196 0 = 0 /\
  filter is_delay (trace (heartbeatTask 100 motor_ok 4294967196 2)) =
    [EvTaskDelayUntil 0; EvTaskDelayUntil 100].
Proof.
  assert (H : 0 <= 100 < 2 ^ 32) by lia.
  split; [exact H |]. split; [reflexivity |].
  destruct (heartbeat_schedule_wraps 100 motor_ok 4294967196 2 H) as [H1 _].
  rewrite H1. reflexivity.
Defined.

(** ** app_main: the mode of operation *)

Lemma mode_after_app (t1 t2 : list Event) :
  forall m, mode_after m (t1 ++ t2) = mode_after (mode_after m t1) t2.
Proof.
  induction t1 as [| e t1 IH]; intros m; [reflexivity |].
  destruct e; cbn [app mode_after]; apply IH.
Qed.

Lemma mode_after_cons (e : Event) (t : list Event) (m : option OPERATION_MODE) :
  mode_after m (e :: t) = mode_after (mode_after m [e]) t.
Proof. exact (mode_after_app [e] t m). Qed.

Lemma modes_respected_app (t1 t2 : list Event) :
  forall m,
    modes_respected m (t1 ++ t2) =
    modes_respected m t1 && modes_respected (mode_after m t1) t2.
Proof.
  induction t1 as [| e t1 IH]; intros m; [reflexivity |].
  cbn [app modes_respected]. rewrite IH, (mode_after_cons e t1 m), andb_assoc.
  reflexivity.
Qed.

Lemma mode_eqb_eq (a b : OPERATION_MODE) : mode_eqb a b = true -> a = b.
Proof. destruct a, b; cbn; congruence. Qed.

Lemma modes_respected_split (pre post : list Event) (e : Event) (r : OPERATION_MODE) :
  forall m,
    modes_respected m (pre ++ e :: post) = true ->
    required_mode e = Some r ->
    mode_after m pre = Some r.
Proof.
  intros m H Hr. rewrite modes_respected_app in H.
  apply andb_prop in H as [_ H]. cbn [modes_respected] in H.
  rewrite Hr in H. apply andb_prop in H as [H _].
  destruct (mode_after m pre) as [m' |]; [| discriminate H].
  apply mode_eqb_eq in H. congruence.
Qed.

Lemma modes_respected_without_moves (t : list Event) :
  (forall e : Event, In e t -> is_motion_command e = false) ->
  forall m, modes_respected m t = true.
Proof.
  induction t as [| e t IH]; intros Hno m; [reflexivity |].
  cbn [modes_respected].
  assert (He : is_motion_command e = false) by (apply Hno; left; reflexivity).
  rewrite IH by (intros e' He'; apply Hno; right; exact He').
  destruct e; cbn in He |- *; congruence.
Qed.

Lemma loop_event_in_position_mode (motor : EPOS4) (e : Event) :
  loop_event motor e ->
  mode_after (Some EPOS_OPERATION_MODE_PPM) [e] = Some EPOS_OPERATION_MODE_PPM /\
  (required_mode e = None \/ required_mode e = Some EPOS_OPERATION_MODE_PPM).
Proof.
  intros [[i H] | [H | H]].
  - cbn in H. repeat (destruct H as [<- | H]; [split; [reflexivity | left; reflexivity] |]).
    contradiction.
  - unfold restore_calls, old_profile_writes in H.
    destruct (all_valid motor); cbn in H;
      repeat (destruct H as [<- | H]; [split; [reflexivity | left; reflexivity] |]);
      contradiction.
  - cbn in H.
    repeat (destruct H as [<- | H];
            [split; [reflexivity | first [left; reflexivity | right; reflexivity]] |]).
    contradiction.
Qed.

Lemma modes_respected_in_loops (motor : EPOS4) (tail : list Event) :
  (forall e : Event, In e tail -> loop_event motor e) ->
  modes_respected (Some EPOS_OPERATION_MODE_PPM) tail = true.
Proof.
  induction tail as [| e tail IH]; intros Htail; [reflexivity |].
  cbn [modes_respected].
  destruct (loop_event_in_position_mode motor e (Htail e (or_introl eq_refl)))
    as [Hmode Hreq].
  rewrite Hmode, IH by (intros e' He'; apply Htail; right; exact He').
  destruct Hreq as [-> | ->]; reflexivity.
Qed.

(** X13: each move is made in the mode of operation it belongs to:
    wherever a run of [app_main] calls [moveToTargetVelocity], the mode set
    last is the profile velocity mode, and wherever it calls
    [moveToTargetPosition] or [broadcastSync] it is the profile position
    mode; no move is made before a mode has been set. *)
Theorem moves_match_mode_of_operation
    (G : ERROR_CODE_t) (motor : EPOS4) (fuel : nat)
    (pre post : list Event) (e : Event) (r : OPERATION_MODE) :
  trace (app_main G motor fuel) = pre ++ e :: post ->
  required_mode e = Some r ->
  mode_after None pre = Some r.
Proof.
  intros Hsplit Hr.
  apply (modes_respected_split pre post e r None); [| exact Hr].
  rewrite <- Hsplit. destruct (setup_ok G motor) eqn:Hok.
  - destruct (app_main_tail G motor fuel Hok) as [tail [Htrace Htail]].
    rewrite Htrace, modes_respected_app.
    change (modes_respected None (motion_calls motor)) with true.
    change (mode_after None (motion_calls motor)) with (Some EPOS_OPERATION_MODE_PPM).
    exact (modes_respected_in_loops motor tail Htail).
  - apply modes_respected_without_moves.
    exact (failed_run_without_motion G motor fuel Hok).
Qed.

Lemma moves_match_mode_of_operation_witness :
  required_mode (EvMoveToTargetVelocity 120) = Some EPOS_OPERATION_MODE_PVM /\
  mode_after None (firstn 27 (trace (app_main some_error motor_ok 1))) =
    Some EPOS_OPERATION_MODE_PVM.
Proof.
  assert (Hsplit : trace (app_main some_error motor_ok 1) =
                   firstn 27 (trace (app_main some_error motor_ok 1)) ++
                   EvMoveToTargetVelocity 120 ::
                   skipn 28 (trace (app_main some_error motor_ok 1)))
    by (vm_compute; reflexivity).
  split; [reflexivity |].
  exact (moves_match_mode_of_operation some_error motor_ok 1 _ _ _ _ Hsplit eq_refl).
Defined.
